(** * ConversationStore.js: the conversation store of the question widget

    A shallow embedding of [ConversationStore] (dev/js/ConversationStore.js)
    and the properties of its action handlers.

    The store is a riot observable.  Every handler registered with
    [self.on] is embedded as a computation over the store that records, in
    order, what it does to the outside world: the broadcasts it triggers
    and the requests it hands to [fetch].  The promise chain attached to a
    request is a second computation, run when the request settles.

    Identifiers come from the views and from the server and can be any
    JSON value, so the embedding keeps what JavaScript does with them: the
    conversion of a value to a property name or to a piece of a URL, which
    throws for some objects, and the lookup in the cache, a plain object
    whose prototype chain answers for names the store never assigned. *)

From Stdlib Require Import ZArith String List Lia.
From stdpp Require Import base option list strings gmap.

Set Warnings "-register-all".

Open Scope string_scope.
Open Scope list_scope.

(** ** JavaScript values *)

(** The values that travel through the store: action payloads, the fields
    of the conversation and the JSON data of the server.

    A number is kept as the string JavaScript prints it as: "0" for both
    zeros, "NaN", "42", "1e+21" and so on.  The store never calculates; it
    tests numbers, compares them and turns them into strings, and all
    three are decided by that string.

    An array or an object is one that [JSON.parse] or a literal made: its
    properties are data, each name once, and it has no methods of its
    own. *)
Inductive value : Type :=
  | JUndefined
  | JNull
  | JBool (b : bool)
  | JNum (printed : string)
  | JStr (s : string)
  | JArr (items : list value)
  | JObj (props : list (string * value)).

(** What [if (v)] tests. *)
Definition truthy (v : value) : bool :=
  match v with
  | JUndefined | JNull => false
  | JBool b => b
  | JNum printed => negb (String.eqb printed "0") && negb (String.eqb printed "NaN")
  | JStr s => negb (String.eqb s "")
  | JArr _ | JObj _ => true
  end.

(** [a === b].  An array or an object is equal to itself only, and no
    comparison of the store has the same object on both sides. *)
Definition strict_equal (a b : value) : bool :=
  match a, b with
  | JUndefined, JUndefined | JNull, JNull => true
  | JBool x, JBool y => Bool.eqb x y
  | JNum x, JNum y => String.eqb x y && negb (String.eqb x "NaN")
  | JStr x, JStr y => String.eqb x y
  | _, _ => false
  end.

(** ** Errors and promise results *)

Inductive error : Type :=
  | Error (message : string)        (* new Error(message) *)
  | TypeError (property : string)   (* reading [property] of null or undefined *)
  | NotPrimitive                    (* TypeError: an object that cannot be converted to a primitive value *)
  | Rejection (reason : string).    (* the reason a promise of the platform was rejected with *)

(** Whether an object has a property [name] of its own *)
Definition has_own (name : string) (props : list (string * value)) : bool :=
  existsb (λ p, String.eqb (fst p) name) props.

(** The string a value turns into as a property name ([cache[v]]) and as
    the right operand of [+] after a string.  An array is joined with
    commas, its null and undefined elements giving the empty string.  An
    object without a [toString] of its own inherits the one of
    [Object.prototype]; one with a [toString] of its own has a property
    there that is no function, and since [valueOf] gives no primitive
    either, the conversion throws. *)
Fixpoint ToString (v : value) : error + string :=
  match v with
  | JUndefined => inr "undefined"
  | JNull => inr "null"
  | JBool true => inr "true"
  | JBool false => inr "false"
  | JNum printed => inr printed
  | JStr s => inr s
  | JArr items =>
      let element x :=
        match x with JUndefined | JNull => inr "" | _ => ToString x end in
      (fix join (l : list value) : error + string :=
         match l with
         | [] => inr ""
         | [x] => element x
         | x :: rest =>
             match element x with
             | inl e => inl e
             | inr first =>
                 match join rest with
                 | inl e => inl e
                 | inr others => inr (first +:+ "," +:+ others)
                 end
             end
         end) items
  | JObj props =>
      if has_own "toString" props then inl NotPrimitive else inr "[object Object]"
  end.

(** The value of the property [name] of an object literal or of parsed
    JSON; [undefined] when there is none. *)
Fixpoint property (name : string) (props : list (string * value)) : value :=
  match props with
  | [] => JUndefined
  | (k, v) :: rest => if String.eqb k name then v else property name rest
  end.

(** [data.name], for the names the store reads from the server's data.
    None of them is a property that strings, numbers, booleans or arrays
    have of their own; reading from null or undefined throws. *)
Definition get (data : value) (name : string) : error + value :=
  match data with
  | JUndefined | JNull => inl (TypeError name)
  | JObj props => inr (property name props)
  | _ => inr JUndefined
  end.

(** ** The data of the store *)

(** [self.conversation] *)
Module Conversation.
Record t : Type := Build {
  conversationId : value;
  message : value;
  messageId : value;
  responses : value;
  topQuestions : value
}.
End Conversation.

(** An entry of [self.questionCache]: [{message: .., responses: ..}] *)
Module CachedMessage.
Record t : Type := Build {
  message : value;
  responses : value
}.
End CachedMessage.

(** [self.questionCache], an object made by [{}] and used as a map.
    [own] are the properties the store has assigned to it.  Its prototype
    is [Object.prototype] ([prototype = None]) until an entry is assigned
    under the name "__proto__": that assignment runs the setter of
    [Object.prototype] and makes the entry the prototype of the cache
    instead of a property. *)
Module Cache.
Record t : Type := Build {
  own : gmap string CachedMessage.t;
  prototype : option CachedMessage.t
}.
End Cache.

(** What [self.questionCache[name]] evaluates to *)
Inductive found : Type :=
  | found_entry (entry : CachedMessage.t)  (* an object [{message, responses}] the store made *)
  | found_function                         (* a method inherited from [Object.prototype] *)
  | found_Object_prototype                 (* [Object.prototype] itself, read through "__proto__" *)
  | found_value (v : value)                (* a field of the entry that is the prototype *)
  | found_undefined.

(** The methods every object inherits from [Object.prototype] *)
Definition Object_prototype_methods : list string :=
  ["constructor"; "hasOwnProperty"; "isPrototypeOf"; "propertyIsEnumerable";
   "toLocaleString"; "toString"; "valueOf";
   "__defineGetter__"; "__defineSetter__"; "__lookupGetter__"; "__lookupSetter__"].

Definition Object_prototype_get (name : string) : found :=
  if existsb (String.eqb name) Object_prototype_methods
  then found_function else found_undefined.

(** [cache[name]].  The name "__proto__" is never a property of the cache
    itself (the store only assigns to it, which runs the setter): reading
    it gives the prototype.  Any other name is looked for among the own
    properties first and then along the prototype chain. *)
Definition Cache_get (cache : Cache.t) (name : string) : found :=
  if String.eqb name "__proto__" then
    match Cache.prototype cache with
    | Some entry => found_entry entry
    | None => found_Object_prototype
    end
  else
    match Cache.own cache !! name with
    | Some entry => found_entry entry
    | None =>
        match Cache.prototype cache with
        | Some entry =>
            if String.eqb name "message"
            then found_value (CachedMessage.message entry)
            else if String.eqb name "responses"
            then found_value (CachedMessage.responses entry)
            else Object_prototype_get name
        | None => Object_prototype_get name
        end
    end.

(** [cache[name] = entry] *)
Definition Cache_set (cache : Cache.t) (name : string) (entry : CachedMessage.t)
  : Cache.t :=
  if String.eqb name "__proto__"
  then {| Cache.own := Cache.own cache; Cache.prototype := Some entry |}
  else {| Cache.own := <[name := entry]> (Cache.own cache);
          Cache.prototype := Cache.prototype cache |}.

(** What [if (cachedMessage)] tests *)
Definition truthy_found (cachedMessage : found) : bool :=
  match cachedMessage with
  | found_entry _ | found_function | found_Object_prototype => true
  | found_value v => truthy v
  | found_undefined => false
  end.

(** [cachedMessage.name] for a truthy [cachedMessage] and the names
    "message" and "responses", which neither functions, strings, numbers,
    booleans, arrays nor [Object.prototype] have. *)
Definition found_get (cachedMessage : found) (name : string) : value :=
  match cachedMessage with
  | found_entry entry =>
      if String.eqb name "message" then CachedMessage.message entry
      else if String.eqb name "responses" then CachedMessage.responses entry
      else JUndefined
  | found_value (JObj props) => property name props
  | _ => JUndefined
  end.

(** The store object.  [conversation], [questionHistory] and
    [questionCache] are what the constructor assigns.  [topQuestions] is
    the property [self.topQuestions] that the GET_TOP_QUESTIONS handler
    reads; the constructor does not assign it. *)
Module Store.
Record t : Type := Build {
  conversation : Conversation.t;
  questionHistory : list value;
  questionCache : Cache.t;
  topQuestions : value
}.
End Store.

(** The payload of ASK_QUESTION, SET_CURRENT_QUESTION and
    UPDATE_REFINEMENT_QUESTIONS, an object; a property the caller left out
    reads as [JUndefined]. *)
Module Question.
Record t : Type := Build {
  messageId : value;
  message : value;
  referrer : value
}.
End Question.

(** The object UPDATE_REFINEMENT_QUESTIONS builds and broadcasts. *)
Module Refinement.
Record t : Type := Build {
  responses : value;
  messageId : value;
  message : value
}.
End Refinement.

(** [requestBody.referrer]; [messageId] is [None] when the property was
    not assigned. *)
Module Referrer.
Record t : Type := Build {
  source : value;
  messageId : option value
}.
End Referrer.

(** [requestBody] of ASK_QUESTION, built from [{}] by assignments. *)
Module RequestBody.
Record t : Type := Build {
  message : option value;
  referrer : option Referrer.t
}.
End RequestBody.

(** [postData] of the feedback handlers. *)
Module PostData.
Record t : Type := Build {
  conversationId : value;
  messageId : value;
  action : string
}.
End PostData.

(** The argument of [JSON.stringify] in the [body] of a request. *)
Inductive body : Type :=
  | no_body
  | stringify_requestBody (requestBody : RequestBody.t)
  | stringify_postData (postData : PostData.t).

(** The arguments of a call of [fetch]. *)
Module Request.
Record t : Type := Build {
  url : string;
  method : string;
  headers : list (string * string);
  body : body
}.
End Request.

(** What a handler reads of the response of [fetch]; [json] is what the
    promise of [response.json()] settles with. *)
Module Response.
Record t : Type := Build {
  status : Z;
  statusText : string;
  json : error + value
}.
End Response.

(** How the promise of [fetch] settles. *)
Inductive settlement : Type :=
  | Fulfilled (response : Response.t)
  | Rejected (reason : error).

(** constants.js, which the store requires. *)
Module Constants.
Record t : Type := Build {
  conversationUrl : string;
  feedbackUrl : string;
  refinementQueryType : string
}.
End Constants.

(** ** Actions and broadcasts (action.js) *)

(** The actions the store subscribes to, with their payload. *)
Inductive action : Type :=
  | CONVERSATION_START
  | ASK_QUESTION (question : Question.t)
  | NONE_OF_THE_ABOVE_CLICKED
  | NEGATIVE_FEEDBACK_GIVEN
  | POSITIVE_FEEDBACK_GIVEN
  | FORUM_BUTTON_PRESSED (messageId : value)
  | SET_CURRENT_QUESTION (question : Question.t)
  | UPDATE_REFINEMENT_QUESTIONS (question : Question.t)
  | GET_ALTERNATIVE_QUESTIONS
  | GET_TOP_QUESTIONS.

(** The events the store triggers, with their payload.  A payload that is
    [self.conversation] carries the content of that object at the moment
    of the trigger. *)
Inductive broadcast : Type :=
  | CONVERSATION_STARTED_BROADCAST (conversation : Conversation.t)
  | TOP_QUESTIONS_BROADCAST (topQuestions : value)
  | ASKING_QUESTION_BROADCAST
  | ANSWER_RECEIVED_BROADCAST (conversation : Conversation.t)
  | ALTERNATIVE_QUESTION_BROADCAST (conversation : Conversation.t)
  | SERVER_ERROR_BROADCAST (error : error)
  | NONE_OF_THE_ABOVE_CLICKED_BROADCAST
  | NEGATIVE_FEEDBACK_RECEIVED_BROADCAST
  | POSITIVE_FEEDBACK_RECEIVED_BROADCAST
  | UPDATE_REFINEMENT_QUESTIONS_BROADCAST (conversation : Refinement.t).

(** The promise chains of the store, one per shape of
    [fetch(..).then(..)...catch(..)]. *)
Inductive chain : Type :=
  | start_chain            (* CONVERSATION_START *)
  | ask_chain              (* ASK_QUESTION *)
  | feedback_chain         (* the four feedback handlers *)
  | top_questions_chain.   (* GET_TOP_QUESTIONS *)

(** What a handler does to the outside world.  riot's [trigger] runs the
    subscribers before it returns, so a broadcast is recorded with the
    store as the subscribers find it.  The subscribers are the views, not
    the store: they are taken to return without touching it. *)
Inductive effect : Type :=
  | Trigger (b : broadcast) (seen : Store.t)
  | Fetch (request : Request.t) (k : chain).

(** ** Handlers as computations *)

(** A computation reads and writes the store, logs its effects and either
    returns or throws.  What was written and logged before a throw stays.
    An exception that no [catch] takes leaves the handler and goes to the
    caller of riot's [trigger]. *)
Definition M (A : Type) : Type := Store.t → (error + A) * Store.t * list effect.

#[global] Instance M_ret : MRet M := λ A x s, (inr x, s, []).

#[global] Instance M_bind : MBind M := λ A B f m s,
  match m s with
  | (inr x, s', log) => let '(r, s'', log') := f x s' in (r, s'', log ++ log')
  | (inl e, s', log) => (inl e, s', log)
  end.

Definition throw {A} (e : error) : M A := λ s, (inl e, s, []).

(** [.catch(handler)] at the end of a promise chain *)
Definition catch (m : M unit) (handler : error → M unit) : M unit := λ s,
  match m s with
  | (inr x, s', log) => (inr x, s', log)
  | (inl e, s', log) => let '(r, s'', log') := handler e s' in (r, s'', log ++ log')
  end.

Definition lift {A} (r : error + A) : M A := λ s, (r, s, []).

Definition self : M Store.t := λ s, (inr s, s, []).

Definition modify (f : Store.t → Store.t) : M unit := λ s, (inr tt, f s, []).

Definition trigger (b : broadcast) : M unit := λ s, (inr tt, s, [Trigger b s]).

(** [self.trigger(name, self.conversation)] *)
Definition trigger_conversation (name : Conversation.t → broadcast) : M unit :=
  s ← self; trigger (name (Store.conversation s)).

Definition fetch (request : Request.t) (k : chain) : M unit :=
  λ s, (inr tt, s, [Fetch request k]).

(** Assignments to the fields of [self.conversation] *)
Definition assign (f : Conversation.t → Conversation.t) : M unit :=
  modify (λ s, Store.Build (f (Store.conversation s)) (Store.questionHistory s)
                           (Store.questionCache s) (Store.topQuestions s)).

Definition set_conversationId (v : value) (c : Conversation.t) : Conversation.t :=
  Conversation.Build v (Conversation.message c) (Conversation.messageId c)
                     (Conversation.responses c) (Conversation.topQuestions c).

Definition set_message (v : value) (c : Conversation.t) : Conversation.t :=
  Conversation.Build (Conversation.conversationId c) v (Conversation.messageId c)
                     (Conversation.responses c) (Conversation.topQuestions c).

Definition set_messageId (v : value) (c : Conversation.t) : Conversation.t :=
  Conversation.Build (Conversation.conversationId c) (Conversation.message c) v
                     (Conversation.responses c) (Conversation.topQuestions c).

Definition set_responses (v : value) (c : Conversation.t) : Conversation.t :=
  Conversation.Build (Conversation.conversationId c) (Conversation.message c)
                     (Conversation.messageId c) v (Conversation.topQuestions c).

Definition set_topQuestions (v : value) (c : Conversation.t) : Conversation.t :=
  Conversation.Build (Conversation.conversationId c) (Conversation.message c)
                     (Conversation.messageId c) (Conversation.responses c) v.

(** [self.questionHistory.push(v)] *)
Definition push_history (v : value) : M unit :=
  modify (λ s, Store.Build (Store.conversation s) (Store.questionHistory s ++ [v])
                           (Store.questionCache s) (Store.topQuestions s)).

(** [self.questionCache[key] = entry]: the key is converted to a property
    name first, which can throw. *)
Definition put_cache (key : value) (entry : CachedMessage.t) : M unit :=
  name ← lift (ToString key);
  modify (λ s, Store.Build (Store.conversation s) (Store.questionHistory s)
                           (Cache_set (Store.questionCache s) name entry)
                           (Store.topQuestions s)).

(** [self.questionCache[key]] as the handlers read it *)
Definition questionCache_get (key : value) : M found :=
  name ← lift (ToString key);
  s ← self;
  mret (Cache_get (Store.questionCache s) name).

(** The entry that [self.questionCache[key]] evaluates to, when it
    evaluates to one: [None] when the conversion of the key throws and
    when the cache gives undefined or something that is not an entry. *)
Definition cached (s : Store.t) (key : value) : option CachedMessage.t :=
  match ToString key with
  | inr name =>
      match Cache_get (Store.questionCache s) name with
      | found_entry entry => Some entry
      | _ => None
      end
  | inl _ => None
  end.

(** The store a call of [ConversationStore()] sets up. *)
Definition ConversationStore : Store.t :=
  {| Store.conversation :=
       {| Conversation.conversationId := JStr "";
          Conversation.message := JStr "";
          Conversation.messageId := JStr "";
          Conversation.responses := JArr [];
          Conversation.topQuestions := JArr [] |};
     Store.questionHistory := [];
     Store.questionCache := {| Cache.own := ∅; Cache.prototype := None |};
     Store.topQuestions := JUndefined |}.

Section Handlers.

Variable constants : Constants.t.

Definition json_headers : list (string * string) :=
  [("Content-Type", "application/json")].

(** The value the promise of [fetch] hands to the first [then], or the
    rejection that skips to [catch]. *)
Definition settled (o : settlement) : M Response.t :=
  match o with
  | Fulfilled response => mret response
  | Rejected reason => throw reason
  end.

Definition _parseJson (response : Response.t) : M value :=
  lift (Response.json response).

Definition _analyzeStatus (response : Response.t) : M Response.t :=
  if (Response.status response =? 200)%Z then mret response
  else throw (Error (Response.statusText response)).

(** [function(error) { self.trigger(action.SERVER_ERROR_BROADCAST, error); }] *)
Definition report (error : error) : M unit :=
  trigger (SERVER_ERROR_BROADCAST error).

(** *** CONVERSATION_START *)

Definition on_CONVERSATION_START : M unit :=
  fetch {| Request.url := Constants.conversationUrl constants;
           Request.method := "post";
           Request.headers := json_headers;
           Request.body := no_body |} start_chain.

Definition then_CONVERSATION_START (o : settlement) : M unit :=
  catch
    (response ← settled o;
     response ← (if (Response.status response =? 200)%Z then mret response
                 else throw (Error (Response.statusText response)));
     data ← lift (Response.json response);
     conversationId ← lift (get data "conversationId");
     assign (set_conversationId conversationId);;
     topQuestions ← lift (get data "topQuestions");
     assign (set_topQuestions topQuestions);;
     trigger_conversation CONVERSATION_STARTED_BROADCAST;;
     s ← self;
     trigger (TOP_QUESTIONS_BROADCAST (Conversation.topQuestions (Store.conversation s))))
    report.

(** *** ASK_QUESTION *)

(** [requestBody], from [{}] through the two [if]s *)
Definition requestBody (question : Question.t) (s : Store.t) : RequestBody.t :=
  {| RequestBody.message :=
       if truthy (Question.message question)
       then Some (Question.message question) else None;
     RequestBody.referrer :=
       if truthy (Question.referrer question)
       then Some {| Referrer.source := Question.referrer question;
                    Referrer.messageId :=
                      if strict_equal (Question.referrer question)
                                      (JStr (Constants.refinementQueryType constants))
                      then Some (Conversation.messageId (Store.conversation s))
                      else None |}
       else None |}.

Definition on_ASK_QUESTION (question : Question.t) : M unit :=
  trigger ASKING_QUESTION_BROADCAST;;
  let messageId := Question.messageId question in
  cachedMessage ← questionCache_get messageId;
  if truthy messageId && truthy_found cachedMessage then
    (* recall from cache *)
    assign (set_responses (found_get cachedMessage "responses"));;
    assign (set_messageId messageId);;
    assign (set_message (found_get cachedMessage "message"));;
    trigger_conversation ANSWER_RECEIVED_BROADCAST;;
    trigger_conversation ALTERNATIVE_QUESTION_BROADCAST
  else
    (* just kidding, not in our cache *)
    s ← self;
    conversationId ← lift (ToString (Conversation.conversationId (Store.conversation s)));
    fetch {| Request.url := Constants.conversationUrl constants +:+ conversationId;
             Request.method := "post";
             Request.headers := json_headers;
             Request.body := stringify_requestBody (requestBody question s) |}
          ask_chain.

Definition then_ASK_QUESTION (o : settlement) : M unit :=
  catch
    (response ← settled o;
     response ← _analyzeStatus response;
     data ← _parseJson response;
     (* Update the cache *)
     oldMessageId ← lift (get data "messageId");
     push_history oldMessageId;;
     message ← lift (get data "message");
     responses ← lift (get data "responses");
     put_cache oldMessageId {| CachedMessage.message := message;
                               CachedMessage.responses := responses |};;
     responses ← lift (get data "responses");
     assign (set_responses responses);;
     messageId ← lift (get data "messageId");
     assign (set_messageId messageId);;
     message ← lift (get data "message");
     assign (set_message message);;
     trigger_conversation ANSWER_RECEIVED_BROADCAST;;
     trigger_conversation ALTERNATIVE_QUESTION_BROADCAST)
    report.

(** *** The feedback handlers *)

Definition feedback_request (postData : PostData.t) : Request.t :=
  {| Request.url := Constants.feedbackUrl constants;
     Request.method := "post";
     Request.headers := json_headers;
     Request.body := stringify_postData postData |}.

(** The [then] and [catch] that each of the four feedback handlers
    attaches to its request. *)
Definition then_feedback (o : settlement) : M unit :=
  catch
    (response ← settled o;
     if (Response.status response <? 200)%Z || (Response.status response >=? 300)%Z
     then throw (Error (Response.statusText response))
     else mret tt)
    report.

Definition on_NONE_OF_THE_ABOVE_CLICKED : M unit :=
  (* Don't wait for feedback API calls to return *)
  trigger NONE_OF_THE_ABOVE_CLICKED_BROADCAST;;
  s ← self;
  let postData :=
    {| PostData.conversationId := Conversation.conversationId (Store.conversation s);
       PostData.messageId := Conversation.messageId (Store.conversation s);
       PostData.action := "NO_HELPFUL_REFINEMENTS" |} in
  fetch (feedback_request postData) feedback_chain.

Definition on_NEGATIVE_FEEDBACK_GIVEN : M unit :=
  (* Don't wait for feedback API calls to return *)
  trigger NEGATIVE_FEEDBACK_RECEIVED_BROADCAST;;
  s ← self;
  let postData :=
    {| PostData.conversationId := Conversation.conversationId (Store.conversation s);
       PostData.messageId := Conversation.messageId (Store.conversation s);
       PostData.action := "UNHELPFUL" |} in
  fetch (feedback_request postData) feedback_chain.

Definition on_POSITIVE_FEEDBACK_GIVEN : M unit :=
  (* Don't wait for feedback API calls to return *)
  trigger POSITIVE_FEEDBACK_RECEIVED_BROADCAST;;
  s ← self;
  let postData :=
    {| PostData.conversationId := Conversation.conversationId (Store.conversation s);
       PostData.messageId := Conversation.messageId (Store.conversation s);
       PostData.action := "HELPFUL" |} in
  fetch (feedback_request postData) feedback_chain.

Definition on_FORUM_BUTTON_PRESSED (messageId : value) : M unit :=
  s ← self;
  let postMessageId :=
    if truthy messageId then messageId
    else Conversation.messageId (Store.conversation s) in
  let postData :=
    {| PostData.conversationId := Conversation.conversationId (Store.conversation s);
       PostData.messageId := postMessageId;
       PostData.action := "FORUM_REDIRECT" |} in
  fetch (feedback_request postData) feedback_chain.

(** *** The handlers that only look at the cache *)

Definition on_SET_CURRENT_QUESTION (question : Question.t) : M unit :=
  let messageId := Question.messageId question in
  cachedMessage ← questionCache_get messageId;
  if truthy messageId && truthy_found cachedMessage then
    (* recall from cache *)
    assign (set_responses (found_get cachedMessage "responses"));;
    assign (set_messageId messageId);;
    assign (set_message (found_get cachedMessage "message"))
  else mret tt.

Definition on_UPDATE_REFINEMENT_QUESTIONS (question : Question.t) : M unit :=
  let messageId := Question.messageId question in
  cachedMessage ← questionCache_get messageId;
  if truthy messageId && truthy_found cachedMessage then
    (* recall from cache *)
    let conversation :=
      {| Refinement.responses := found_get cachedMessage "responses";
         Refinement.messageId := messageId;
         Refinement.message := found_get cachedMessage "message" |} in
    trigger (UPDATE_REFINEMENT_QUESTIONS_BROADCAST conversation)
  else mret tt.

Definition on_GET_ALTERNATIVE_QUESTIONS : M unit :=
  trigger_conversation ALTERNATIVE_QUESTION_BROADCAST.

(** *** GET_TOP_QUESTIONS *)

Definition on_GET_TOP_QUESTIONS : M unit :=
  s ← self;
  if truthy (Conversation.conversationId (Store.conversation s))
     && negb (truthy (Conversation.topQuestions (Store.conversation s)))
  then
    conversationId ← lift (ToString (Conversation.conversationId (Store.conversation s)));
    fetch {| Request.url :=
               Constants.conversationUrl constants +:+ conversationId +:+ "/topQuestions";
             Request.method := "get";
             Request.headers := json_headers;
             Request.body := no_body |}
          top_questions_chain
  else if (* self.conversation, an object *) true && truthy (Store.topQuestions s)
  then trigger (TOP_QUESTIONS_BROADCAST (Conversation.topQuestions (Store.conversation s)))
  else mret tt.

Definition then_GET_TOP_QUESTIONS (o : settlement) : M unit :=
  catch
    (response ← settled o;
     response ← _analyzeStatus response;
     data ← _parseJson response;
     topQuestions ← lift (get data "topQuestions");
     assign (set_topQuestions topQuestions);;
     s ← self;
     trigger (TOP_QUESTIONS_BROADCAST (Conversation.topQuestions (Store.conversation s))))
    report.

(** ** The store as a whole *)

(** [self.trigger(a, payload)] from outside: the handler subscribed to [a]. *)
Definition on (a : action) : M unit :=
  match a with
  | CONVERSATION_START => on_CONVERSATION_START
  | ASK_QUESTION question => on_ASK_QUESTION question
  | NONE_OF_THE_ABOVE_CLICKED => on_NONE_OF_THE_ABOVE_CLICKED
  | NEGATIVE_FEEDBACK_GIVEN => on_NEGATIVE_FEEDBACK_GIVEN
  | POSITIVE_FEEDBACK_GIVEN => on_POSITIVE_FEEDBACK_GIVEN
  | FORUM_BUTTON_PRESSED messageId => on_FORUM_BUTTON_PRESSED messageId
  | SET_CURRENT_QUESTION question => on_SET_CURRENT_QUESTION question
  | UPDATE_REFINEMENT_QUESTIONS question => on_UPDATE_REFINEMENT_QUESTIONS question
  | GET_ALTERNATIVE_QUESTIONS => on_GET_ALTERNATIVE_QUESTIONS
  | GET_TOP_QUESTIONS => on_GET_TOP_QUESTIONS
  end.

(** The chain that runs when a request of the store settles. *)
Definition settle (k : chain) (o : settlement) : M unit :=
  match k with
  | start_chain => then_CONVERSATION_START o
  | ask_chain => then_ASK_QUESTION o
  | feedback_chain => then_feedback o
  | top_questions_chain => then_GET_TOP_QUESTIONS o
  end.

End Handlers.

(** ** The event loop around the store *)

(** The store together with the requests that have not settled yet and
    everything done so far, oldest first. *)
Record system : Type := System {
  store : Store.t;
  pending : list (Request.t * chain);
  trace : list effect
}.

(** The requests among the effects of a run *)
Fixpoint fetches (log : list effect) : list (Request.t * chain) :=
  match log with
  | [] => []
  | Trigger _ _ :: rest => fetches rest
  | Fetch request k :: rest => (request, k) :: fetches rest
  end.

Definition initial : system :=
  {| store := ConversationStore; pending := []; trace := [] |}.

Section EventLoop.

Variable constants : Constants.t.

(** A view triggers the action [a]. *)
Definition dispatch (a : action) (sys : system) : system :=
  let '(_, s, log) := on constants a (store sys) in
  {| store := s;
     pending := pending sys ++ fetches log;
     trace := trace sys ++ log |}.

(** The [i]-th pending request settles with [o]. *)
Definition resolve (i : nat) (o : settlement) (sys : system) : system :=
  match pending sys !! i with
  | None => sys
  | Some (_, k) =>
      let '(_, s, log) := settle k o (store sys) in
      {| store := s;
         pending := delete i (pending sys) ++ fetches log;
         trace := trace sys ++ log |}
  end.

Inductive step : system → system → Prop :=
  | step_dispatch a sys : step sys (dispatch a sys)
  | step_resolve i o sys : is_Some (pending sys !! i) → step sys (resolve i o sys).

(** The systems a page can be in. *)
Definition reachable (sys : system) : Prop := rtc step initial sys.

End EventLoop.

(** * Vocabulary of the properties *)

(** The broadcasts among the effects of a run, without the stores seen *)
Fixpoint broadcasts (log : list effect) : list broadcast :=
  match log with
  | [] => []
  | Trigger b _ :: rest => b :: broadcasts rest
  | Fetch _ _ :: rest => broadcasts rest
  end.

(** The store after a cache hit on [messageId] with entry [cachedMessage]:
    three fields of the conversation are assigned, nothing else. *)
Definition recalled (s : Store.t) (messageId : value) (cachedMessage : CachedMessage.t)
  : Store.t :=
  {| Store.conversation :=
       {| Conversation.conversationId := Conversation.conversationId (Store.conversation s);
          Conversation.message := CachedMessage.message cachedMessage;
          Conversation.messageId := messageId;
          Conversation.responses := CachedMessage.responses cachedMessage;
          Conversation.topQuestions := Conversation.topQuestions (Store.conversation s) |};
     Store.questionHistory := Store.questionHistory s;
     Store.questionCache := Store.questionCache s;
     Store.topQuestions := Store.topQuestions s |}.

(** The message and the responses the recall branch reads off what it
    found in the cache *)
Definition read_off (cachedMessage : found) : CachedMessage.t :=
  {| CachedMessage.message := found_get cachedMessage "message";
     CachedMessage.responses := found_get cachedMessage "responses" |}.

(** The store after the answer [{messageId: m, message: t, responses: r}]
    of the server was recorded, [name] being the property name of [m]. *)
Definition answered (s : Store.t) (name : string) (m t r : value) : Store.t :=
  {| Store.conversation :=
       {| Conversation.conversationId := Conversation.conversationId (Store.conversation s);
          Conversation.message := t;
          Conversation.messageId := m;
          Conversation.responses := r;
          Conversation.topQuestions := Conversation.topQuestions (Store.conversation s) |};
     Store.questionHistory := Store.questionHistory s ++ [m];
     Store.questionCache :=
       Cache_set (Store.questionCache s) name
         {| CachedMessage.message := t; CachedMessage.responses := r |};
     Store.topQuestions := Store.topQuestions s |}.

(** The store with [m] appended to the history and nothing else done *)
Definition pushed (s : Store.t) (m : value) : Store.t :=
  {| Store.conversation := Store.conversation s;
     Store.questionHistory := Store.questionHistory s ++ [m];
     Store.questionCache := Store.questionCache s;
     Store.topQuestions := Store.topQuestions s |}.

(** The store after the server started the conversation [id] with the top
    questions [top]. *)
Definition started (s : Store.t) (id top : value) : Store.t :=
  {| Store.conversation :=
       {| Conversation.conversationId := id;
          Conversation.message := Conversation.message (Store.conversation s);
          Conversation.messageId := Conversation.messageId (Store.conversation s);
          Conversation.responses := Conversation.responses (Store.conversation s);
          Conversation.topQuestions := top |};
     Store.questionHistory := Store.questionHistory s;
     Store.questionCache := Store.questionCache s;
     Store.topQuestions := Store.topQuestions s |}.

(** The broadcast the specification has a feedback action trigger at once *)
Definition immediate (a : action) : option broadcast :=
  match a with
  | NONE_OF_THE_ABOVE_CLICKED => Some NONE_OF_THE_ABOVE_CLICKED_BROADCAST
  | NEGATIVE_FEEDBACK_GIVEN => Some NEGATIVE_FEEDBACK_RECEIVED_BROADCAST
  | POSITIVE_FEEDBACK_GIVEN => Some POSITIVE_FEEDBACK_RECEIVED_BROADCAST
  | _ => None
  end.

(** The test [messageId && cachedMessage] of the handlers that consult the
    cache fails: [messageId] converts to a property name, and it is falsy
    or the cache gives something falsy under that name. *)
Definition not_recalled (s : Store.t) (messageId : value) : Prop :=
  ∃ name,
    ToString messageId = inr name
    ∧ truthy messageId && truthy_found (Cache_get (Store.questionCache s) name) = false.

(** ASK_QUESTION goes to the network: the test on the cache fails and
    [conversationId] converts to a string, so that the handler gets to its
    call of [fetch]. *)
Definition network_path (s : Store.t) (question : Question.t) : Prop :=
  not_recalled s (Question.messageId question)
  ∧ ∃ conversationId,
      ToString (Conversation.conversationId (Store.conversation s)) = inr conversationId.

(** The statuses the specification has a chain accept: [200, 300) for the
    feedback calls, 200 alone for the calls that fetch content. *)
Definition accepts (k : chain) (status : Z) : bool :=
  match k with
  | feedback_chain => (200 <=? status)%Z && (status <? 300)%Z
  | start_chain | ask_chain | top_questions_chain => (status =? 200)%Z
  end.

(** Data that has no properties to read: [null] (and undefined) *)
Definition nullish (data : value) : bool :=
  match data with
  | JUndefined | JNull => true
  | _ => false
  end.

(** [data.name] for data that is not nullish *)
Definition read (data : value) (name : string) : value :=
  match data with
  | JObj props => property name props
  | _ => JUndefined
  end.

(** The cache gives an entry under [name]. *)
Definition gives_entry (cache : Cache.t) (name : string) : Prop :=
  ∃ entry, Cache_get cache name = found_entry entry.

(** A value that converts to a string *)
Definition converts (v : value) : bool :=
  match ToString v with
  | inr _ => true
  | inl _ => false
  end.

(** JSON data a chain can work with: its properties can be read, and its
    messageId converts to a property name. *)
Definition readable (data : value) : bool :=
  match data with
  | JUndefined | JNull => false
  | JObj props => converts (property "messageId" props)
  | _ => true
  end.

(** The property a chain reads first from the data *)
Definition first_read (k : chain) : string :=
  match k with
  | start_chain => "conversationId"
  | ask_chain => "messageId"
  | top_questions_chain => "topQuestions"
  | feedback_chain => ""
  end.

(** A computation keeps the relation [R] between the store it starts in
    and the store it leaves. *)
Definition keeps {A} (R : Store.t → Store.t → Prop) (m : M A) : Prop :=
  ∀ s, R s (m s).1.2.

(** [self.topQuestions] is left as it was. *)
Definition same_topQuestions (s s' : Store.t) : Prop :=
  Store.topQuestions s' = Store.topQuestions s.

(** The property name of an identifier, when it has one *)
Definition name_of (m : value) : option string :=
  match ToString m with
  | inr name => Some name
  | inl _ => None
  end.

(** The property names of the identifiers in the history *)
Definition history_keys (s : Store.t) : gset string :=
  list_to_set (omap name_of (Store.questionHistory s)).

(** The [action] a feedback handler posts *)
Definition feedback_action (a : action) : option string :=
  match a with
  | NONE_OF_THE_ABOVE_CLICKED => Some "NO_HELPFUL_REFINEMENTS"
  | NEGATIVE_FEEDBACK_GIVEN => Some "UNHELPFUL"
  | POSITIVE_FEEDBACK_GIVEN => Some "HELPFUL"
  | _ => None
  end.

(** The actions whose handler assigns to the conversation before it
    returns *)
Definition recalls (a : action) : bool :=
  match a with
  | ASK_QUESTION _ | SET_CURRENT_QUESTION _ => true
  | _ => false
  end.

(** Sample data for the concrete runs below *)
Definition sample_constants : Constants.t :=
  {| Constants.conversationUrl := "/";
     Constants.feedbackUrl := "/feedback";
     Constants.refinementQueryType := "REFINEMENT" |}.

Definition ok (data : value) : Response.t :=
  {| Response.status := 200; Response.statusText := "OK"; Response.json := inr data |}.

(** The response 200 with the data [{messageId: m, message: t, responses: r}] *)
Definition answer (m t r : value) : Response.t :=
  ok (JObj [("messageId", m); ("message", t); ("responses", r)]).

Definition unavailable : Response.t :=
  {| Response.status := 503;
     Response.statusText := "Service Unavailable";
     Response.json := inl (Rejection "Unexpected token") |}.

Definition sample_start : value :=
  JObj [("conversationId", JStr "c1"); ("topQuestions", JArr [JStr "q1"; JStr "q2"])].

Definition sample_answer : value :=
  JObj [("messageId", JStr "m1"); ("message", JStr "hi");
        ("responses", JArr [JStr "r1"; JStr "r2"])].

(** The store once the conversation "c1" has started *)
Definition sample_started : Store.t :=
  (then_CONVERSATION_START (Fulfilled (ok sample_start)) ConversationStore).1.2.

(** and once the answer "m1" has come in *)
Definition sample_answered : Store.t :=
  (then_ASK_QUESTION (Fulfilled (ok sample_answer)) sample_started).1.2.

Definition sample_answer2 : value :=
  JObj [("messageId", JStr "m2"); ("message", JStr "bye"); ("responses", JArr [])].

(** and once a second answer, "m2", has come in *)
Definition sample_answered2 : Store.t :=
  (then_ASK_QUESTION (Fulfilled (ok sample_answer2)) sample_answered).1.2.

(** An identifier that does not convert to a property name: the object
    [{"toString": 1}] *)
Definition sample_object : value := JObj [("toString", JNum "1")].

(** The page after the conversation "c1" has started and the question
    "why" was answered with "m1" *)
Definition sample_system : system :=
  resolve 0 (Fulfilled (ok sample_answer))
    (dispatch sample_constants
       (ASK_QUESTION (Question.Build JUndefined (JStr "why") JUndefined))
       (resolve 0 (Fulfilled (ok sample_start))
          (dispatch sample_constants CONVERSATION_START initial))).

(** and after a second question was answered with "m2" *)
Definition sample_system2 : system :=
  resolve 0 (Fulfilled (ok sample_answer2))
    (dispatch sample_constants
       (ASK_QUESTION (Question.Build JUndefined (JStr "and then") JUndefined))
       sample_system).

(** Unfolding a handler down to the operations on the store; the tests on
    the cache are left for the hypotheses to decide. *)
Ltac run :=
  unfold on, settle, on_CONVERSATION_START, then_CONVERSATION_START,
    on_ASK_QUESTION, then_ASK_QUESTION, then_feedback,
    on_NONE_OF_THE_ABOVE_CLICKED, on_NEGATIVE_FEEDBACK_GIVEN,
    on_POSITIVE_FEEDBACK_GIVEN, on_FORUM_BUTTON_PRESSED,
    on_SET_CURRENT_QUESTION, on_UPDATE_REFINEMENT_QUESTIONS,
    on_GET_ALTERNATIVE_QUESTIONS, on_GET_TOP_QUESTIONS, then_GET_TOP_QUESTIONS,
    _analyzeStatus, _parseJson, settled, report, trigger_conversation,
    push_history, put_cache, questionCache_get, assign, catch, lift, throw,
    fetch, trigger, modify, self, mbind, M_bind, mret, M_ret.

(** A broadcast that is none of the listed ones *)
Ltac absent :=
  let H := fresh "Hin" in
  intros H;
  repeat (apply elem_of_cons in H as [H | H]; [discriminate H |]);
  apply elem_of_nil in H; exact H.

(** * Properties *)

(** ** Values, conversions and the cache object *)

Lemma strict_equal_JStr (v : value) (c : string) :
  strict_equal v (JStr c) = true ↔ v = JStr c.
Proof.
  destruct v; simpl; try (split; [discriminate | discriminate]).
  rewrite String.eqb_eq. split; [intros -> | intros [= ->]]; reflexivity.
Qed.

Lemma get_readable (data : value) (name : string) :
  readable data = true → ∃ v, get data name = inr v.
Proof. destruct data; simpl; try discriminate; eauto. Qed.

Lemma converts_ToString (v : value) :
  converts v = true → ∃ name, ToString v = inr name.
Proof. unfold converts. destruct (ToString v) as [e | name]; [discriminate | eauto]. Qed.

Lemma readable_messageId (data m : value) :
  readable data = true → get data "messageId" = inr m → ∃ name, ToString m = inr name.
Proof.
  destruct data; simpl; try discriminate; intros Hread [= <-];
    try (eexists; reflexivity).
  apply converts_ToString. exact Hread.
Qed.

(** A falsy value is a primitive: its conversion cannot throw. *)
Lemma falsy_converts (v : value) :
  truthy v = false → ∃ name, ToString v = inr name.
Proof. destruct v as [| | [] | | | |]; simpl; try discriminate; eauto. Qed.

Lemma read_off_entry (entry : CachedMessage.t) : read_off (found_entry entry) = entry.
Proof. destruct entry. reflexivity. Qed.

(** What was assigned under a name is what the cache gives under it. *)
Lemma Cache_get_set (cache : Cache.t) (name : string) (entry : CachedMessage.t) :
  Cache_get (Cache_set cache name entry) name = found_entry entry.
Proof.
  unfold Cache_get, Cache_set.
  destruct (String.eqb name "__proto__") eqn:E; simpl; rewrite ?E; [reflexivity |].
  rewrite lookup_insert_eq. reflexivity.
Qed.

(** An entry the cache gives under one name is not disturbed by an
    assignment under another name. *)
Lemma Cache_get_set_other (cache : Cache.t) (name other : string)
    (entry new : CachedMessage.t) :
  name ≠ other →
  Cache_get cache name = found_entry entry →
  Cache_get (Cache_set cache other new) name = found_entry entry.
Proof.
  intros Hne. unfold Cache_get, Cache_set.
  destruct (String.eqb_spec name "__proto__") as [-> | Hname].
  - destruct (String.eqb_spec other "__proto__") as [-> | Hother]; [contradiction |].
    simpl. tauto.
  - destruct (String.eqb_spec other "__proto__") as [-> | Hother]; simpl.
    + destruct (Cache.own cache !! name) as [own |]; [tauto |].
      destruct (Cache.prototype cache) as [p |];
        repeat case_match; unfold Object_prototype_get; repeat case_match;
        discriminate.
    + rewrite lookup_insert_ne by congruence.
      tauto.
Qed.

Lemma cached_found (s : Store.t) (key : value) (entry : CachedMessage.t) :
  cached s key = Some entry ↔
  ∃ name, ToString key = inr name
          ∧ Cache_get (Store.questionCache s) name = found_entry entry.
Proof.
  unfold cached. split.
  - destruct (ToString key) as [e | name]; [discriminate |].
    destruct (Cache_get (Store.questionCache s) name) eqn:E; try discriminate.
    intros [= ->]. eauto.
  - intros (name & -> & ->). reflexivity.
Qed.

(** ** The paths of the handlers that consult the cache *)

Section CachePaths.

Variable constants : Constants.t.
Variable question : Question.t.
Variable s : Store.t.

Let messageId := Question.messageId question.
Let cache := Store.questionCache s.

(** The conversion of the identifier throws: the exception leaves the
    handler. *)
Lemma ASK_QUESTION_throws (e : error) :
  ToString messageId = inl e →
  on constants (ASK_QUESTION question) s
    = (inl e, s, [Trigger ASKING_QUESTION_BROADCAST s]).
Proof. intros H. run. fold messageId. rewrite H. reflexivity. Qed.

Lemma ASK_QUESTION_recalls (name : string) :
  ToString messageId = inr name →
  truthy messageId && truthy_found (Cache_get cache name) = true →
  let s' := recalled s messageId (read_off (Cache_get cache name)) in
  on constants (ASK_QUESTION question) s
    = (inr tt, s',
       [Trigger ASKING_QUESTION_BROADCAST s;
        Trigger (ANSWER_RECEIVED_BROADCAST (Store.conversation s')) s';
        Trigger (ALTERNATIVE_QUESTION_BROADCAST (Store.conversation s')) s']).
Proof.
  intros Hname Htest. run. fold messageId. rewrite Hname. simpl.
  fold cache. rewrite Htest. reflexivity.
Qed.

Lemma ASK_QUESTION_posts (name conversationId : string) :
  ToString messageId = inr name →
  truthy messageId && truthy_found (Cache_get cache name) = false →
  ToString (Conversation.conversationId (Store.conversation s)) = inr conversationId →
  on constants (ASK_QUESTION question) s
    = (inr tt, s,
       [Trigger ASKING_QUESTION_BROADCAST s;
        Fetch {| Request.url := Constants.conversationUrl constants +:+ conversationId;
                 Request.method := "post";
                 Request.headers := json_headers;
                 Request.body := stringify_requestBody (requestBody constants question s) |}
              ask_chain]).
Proof.
  intros Hname Htest Hid. run. fold messageId. rewrite Hname. simpl.
  fold cache. rewrite Htest. simpl. rewrite Hid. reflexivity.
Qed.

Lemma ASK_QUESTION_url_throws (name : string) (e : error) :
  ToString messageId = inr name →
  truthy messageId && truthy_found (Cache_get cache name) = false →
  ToString (Conversation.conversationId (Store.conversation s)) = inl e →
  on constants (ASK_QUESTION question) s
    = (inl e, s, [Trigger ASKING_QUESTION_BROADCAST s]).
Proof.
  intros Hname Htest Hid. run. fold messageId. rewrite Hname. simpl.
  fold cache. rewrite Htest. simpl. rewrite Hid. reflexivity.
Qed.

Lemma SET_CURRENT_QUESTION_throws (e : error) :
  ToString messageId = inl e →
  on constants (SET_CURRENT_QUESTION question) s = (inl e, s, []).
Proof. intros H. run. fold messageId. rewrite H. reflexivity. Qed.

Lemma SET_CURRENT_QUESTION_recalls (name : string) :
  ToString messageId = inr name →
  truthy messageId && truthy_found (Cache_get cache name) = true →
  on constants (SET_CURRENT_QUESTION question) s
    = (inr tt, recalled s messageId (read_off (Cache_get cache name)), []).
Proof.
  intros Hname Htest. run. fold messageId. rewrite Hname. simpl.
  fold cache. rewrite Htest. reflexivity.
Qed.

Lemma SET_CURRENT_QUESTION_skips (name : string) :
  ToString messageId = inr name →
  truthy messageId && truthy_found (Cache_get cache name) = false →
  on constants (SET_CURRENT_QUESTION question) s = (inr tt, s, []).
Proof.
  intros Hname Htest. run. fold messageId. rewrite Hname. simpl.
  fold cache. rewrite Htest. reflexivity.
Qed.

Lemma UPDATE_REFINEMENT_QUESTIONS_throws (e : error) :
  ToString messageId = inl e →
  on constants (UPDATE_REFINEMENT_QUESTIONS question) s = (inl e, s, []).
Proof. intros H. run. fold messageId. rewrite H. reflexivity. Qed.

Lemma UPDATE_REFINEMENT_QUESTIONS_recalls (name : string) :
  ToString messageId = inr name →
  truthy messageId && truthy_found (Cache_get cache name) = true →
  on constants (UPDATE_REFINEMENT_QUESTIONS question) s
    = (inr tt, s,
       [Trigger (UPDATE_REFINEMENT_QUESTIONS_BROADCAST
                   {| Refinement.responses := found_get (Cache_get cache name) "responses";
                      Refinement.messageId := messageId;
                      Refinement.message := found_get (Cache_get cache name) "message" |})
                s]).
Proof.
  intros Hname Htest. run. fold messageId. rewrite Hname. simpl.
  fold cache. rewrite Htest. reflexivity.
Qed.

Lemma UPDATE_REFINEMENT_QUESTIONS_skips (name : string) :
  ToString messageId = inr name →
  truthy messageId && truthy_found (Cache_get cache name) = false →
  on constants (UPDATE_REFINEMENT_QUESTIONS question) s = (inr tt, s, []).
Proof.
  intros Hname Htest. run. fold messageId. rewrite Hname. simpl.
  fold cache. rewrite Htest. reflexivity.
Qed.

(** The recall of an entry the cache gives under a truthy identifier *)
Lemma truthy_cached_test (cachedMessage : CachedMessage.t) :
  truthy messageId = true →
  cached s messageId = Some cachedMessage →
  ∃ name,
    ToString messageId = inr name
    ∧ Cache_get cache name = found_entry cachedMessage
    ∧ truthy messageId && truthy_found (Cache_get cache name) = true.
Proof.
  intros Htruthy Hcached.
  apply cached_found in Hcached as (name & Hname & Hget).
  exists name. split; [exact Hname | split; [exact Hget |]].
  fold cache in Hget. rewrite Htruthy, Hget. reflexivity.
Qed.

Lemma SET_CURRENT_QUESTION_hit (cachedMessage : CachedMessage.t) :
  truthy messageId = true →
  cached s messageId = Some cachedMessage →
  on constants (SET_CURRENT_QUESTION question) s
    = (inr tt, recalled s messageId cachedMessage, []).
Proof.
  intros Htruthy Hcached.
  destruct (truthy_cached_test _ Htruthy Hcached) as (name & Hname & Hget & Htest).
  rewrite (SET_CURRENT_QUESTION_recalls name Hname Htest), Hget, read_off_entry.
  reflexivity.
Qed.

Lemma ASK_QUESTION_hit (cachedMessage : CachedMessage.t) :
  truthy messageId = true →
  cached s messageId = Some cachedMessage →
  let s' := recalled s messageId cachedMessage in
  on constants (ASK_QUESTION question) s
    = (inr tt, s',
       [Trigger ASKING_QUESTION_BROADCAST s;
        Trigger (ANSWER_RECEIVED_BROADCAST (Store.conversation s')) s';
        Trigger (ALTERNATIVE_QUESTION_BROADCAST (Store.conversation s')) s']).
Proof.
  intros Htruthy Hcached.
  destruct (truthy_cached_test _ Htruthy Hcached) as (name & Hname & Hget & Htest).
  rewrite (ASK_QUESTION_recalls name Hname Htest), Hget, read_off_entry.
  reflexivity.
Qed.

Lemma ASK_QUESTION_miss :
  network_path s question →
  ∃ conversationId,
    ToString (Conversation.conversationId (Store.conversation s)) = inr conversationId
    ∧ on constants (ASK_QUESTION question) s
      = (inr tt, s,
         [Trigger ASKING_QUESTION_BROADCAST s;
          Fetch {| Request.url := Constants.conversationUrl constants +:+ conversationId;
                   Request.method := "post";
                   Request.headers := json_headers;
                   Request.body := stringify_requestBody (requestBody constants question s) |}
                ask_chain]).
Proof.
  intros [(name & Hname & Htest) (conversationId & Hid)].
  exists conversationId. split; [exact Hid |].
  exact (ASK_QUESTION_posts name conversationId Hname Htest Hid).
Qed.

End CachePaths.

(** ** The chain of ASK_QUESTION *)

Lemma then_ASK_QUESTION_answer
    (s : Store.t) (response : Response.t) (data m t r : value) (name : string) :
  Response.status response = 200%Z →
  Response.json response = inr data →
  get data "messageId" = inr m →
  get data "message" = inr t →
  get data "responses" = inr r →
  ToString m = inr name →
  let s' := answered s name m t r in
  then_ASK_QUESTION (Fulfilled response) s
    = (inr tt, s',
       [Trigger (ANSWER_RECEIVED_BROADCAST (Store.conversation s')) s';
        Trigger (ALTERNATIVE_QUESTION_BROADCAST (Store.conversation s')) s']).
Proof.
  intros Hstatus Hjson Hm Ht Hr Hname. run.
  rewrite Hstatus. simpl. rewrite Hjson. simpl. rewrite Hm, Ht, Hr. simpl.
  rewrite Hname. reflexivity.
Qed.

(** The identifier of the answer does not convert: the history has it
    already when the assignment to the cache throws. *)
Lemma then_ASK_QUESTION_half_written
    (s : Store.t) (response : Response.t) (data m t r : value) (e : error) :
  Response.status response = 200%Z →
  Response.json response = inr data →
  get data "messageId" = inr m →
  get data "message" = inr t →
  get data "responses" = inr r →
  ToString m = inl e →
  then_ASK_QUESTION (Fulfilled response) s
    = (inr tt, pushed s m, [Trigger (SERVER_ERROR_BROADCAST e) (pushed s m)]).
Proof.
  intros Hstatus Hjson Hm Ht Hr Hname. run.
  rewrite Hstatus. simpl. rewrite Hjson. simpl. rewrite Hm, Ht, Hr. simpl.
  rewrite Hname. reflexivity.
Qed.
(** ** What no handler touches *)

Section Frame.

Variable R : Store.t → Store.t → Prop.
Hypothesis R_refl : ∀ s, R s s.
Hypothesis R_trans : ∀ s1 s2 s3, R s1 s2 → R s2 s3 → R s1 s3.

Lemma keeps_ret {A} (x : A) : keeps R (mret x).
Proof. intros s. apply R_refl. Qed.

Lemma keeps_throw {A} (e : error) : keeps R (@throw A e).
Proof. intros s. apply R_refl. Qed.

Lemma keeps_lift {A} (r : error + A) : keeps R (lift r).
Proof. intros s. apply R_refl. Qed.

Lemma keeps_self : keeps R self.
Proof. intros s. apply R_refl. Qed.

Lemma keeps_trigger (b : broadcast) : keeps R (trigger b).
Proof. intros s. apply R_refl. Qed.

Lemma keeps_fetch (request : Request.t) (k : chain) : keeps R (fetch request k).
Proof. intros s. apply R_refl. Qed.

Lemma keeps_modify (f : Store.t → Store.t) : (∀ s, R s (f s)) → keeps R (modify f).
Proof. intros H s. apply H. Qed.

Lemma keeps_bind {A B} (m : M A) (f : A → M B) :
  keeps R m → (∀ x, keeps R (f x)) → keeps R (m ≫= f).
Proof.
  intros Hm Hf s. unfold mbind, M_bind.
  pose proof (Hm s) as H1.
  destruct (m s) as [[[e | x] s1] log]; simpl in *; [exact H1 |].
  pose proof (Hf x s1) as H2.
  destruct (f x s1) as [[r s2] log2]; simpl in *.
  eapply R_trans; eassumption.
Qed.

Lemma keeps_catch (m : M unit) (handler : error → M unit) :
  keeps R m → (∀ e, keeps R (handler e)) → keeps R (catch m handler).
Proof.
  intros Hm Hh s. unfold catch.
  pose proof (Hm s) as H1.
  destruct (m s) as [[[e | x] s1] log]; simpl in *; [| exact H1].
  pose proof (Hh e s1) as H2.
  destruct (handler e s1) as [[r s2] log2]; simpl in *.
  eapply R_trans; eassumption.
Qed.

End Frame.

(** Taking a handler apart along its binds, tests and matches *)
Ltac frame R_refl R_trans :=
  repeat first
    [ apply (keeps_bind _ R_trans); [| intros ?]
    | apply (keeps_catch _ R_trans); [| intros ?]
    | apply (keeps_ret _ R_refl)
    | apply (keeps_throw _ R_refl)
    | apply (keeps_lift _ R_refl)
    | apply (keeps_self _ R_refl)
    | apply (keeps_trigger _ R_refl)
    | apply (keeps_fetch _ R_refl)
    | apply keeps_modify; intros ?; reflexivity
    | case_match ].

Lemma same_topQuestions_refl (s : Store.t) : same_topQuestions s s.
Proof. reflexivity. Qed.

Lemma same_topQuestions_trans (s1 s2 s3 : Store.t) :
  same_topQuestions s1 s2 → same_topQuestions s2 s3 → same_topQuestions s1 s3.
Proof. unfold same_topQuestions. congruence. Qed.

Lemma on_same_topQuestions (constants : Constants.t) (a : action) :
  keeps same_topQuestions (on constants a).
Proof.
  destruct a; simpl;
    unfold on_CONVERSATION_START, on_ASK_QUESTION, on_NONE_OF_THE_ABOVE_CLICKED,
      on_NEGATIVE_FEEDBACK_GIVEN, on_POSITIVE_FEEDBACK_GIVEN, on_FORUM_BUTTON_PRESSED,
      on_SET_CURRENT_QUESTION, on_UPDATE_REFINEMENT_QUESTIONS,
      on_GET_ALTERNATIVE_QUESTIONS, on_GET_TOP_QUESTIONS, trigger_conversation, assign,
      questionCache_get;
    frame same_topQuestions_refl same_topQuestions_trans.
Qed.

Lemma settle_same_topQuestions (k : chain) (o : settlement) :
  keeps same_topQuestions (settle k o).
Proof.
  destruct k; simpl;
    unfold then_CONVERSATION_START, then_ASK_QUESTION, then_feedback,
      then_GET_TOP_QUESTIONS, _analyzeStatus, _parseJson, settled, report,
      trigger_conversation, assign, push_history, put_cache;
    frame same_topQuestions_refl same_topQuestions_trans.
Qed.

(** ** The event loop *)


Section EventLoopFacts.

Variable constants : Constants.t.

Lemma dispatch_trace (a : action) (sys : system) :
  trace (dispatch constants a sys) = trace sys ++ (on constants a (store sys)).2.
Proof.
  unfold dispatch. destruct (on constants a (store sys)) as [[r s] log]. reflexivity.
Qed.

Lemma step_trace (sys sys' : system) :
  step constants sys sys' → ∃ log, trace sys' = trace sys ++ log.
Proof.
  intros [a sys0 | i o sys0 Hi].
  - eexists. apply dispatch_trace.
  - unfold resolve. destruct (pending sys0 !! i) as [[request k] |].
    + destruct (settle k o (store sys0)) as [[r s] log]. simpl. eauto.
    + exists []. symmetry. apply app_nil_r.
Qed.

(** Nothing is ever taken back from the trace. *)
Lemma steps_trace (sys sys' : system) :
  rtc (step constants) sys sys' → ∃ log, trace sys' = trace sys ++ log.
Proof.
  induction 1 as [sys | sys1 sys2 sys3 Hstep _ [log2 IH]].
  - exists []. symmetry. apply app_nil_r.
  - destruct (step_trace _ _ Hstep) as [log1 H1].
    exists (log1 ++ log2). rewrite IH, H1. symmetry. apply app_assoc.
Qed.

Lemma step_topQuestions (sys sys' : system) :
  step constants sys sys' →
  Store.topQuestions (store sys') = Store.topQuestions (store sys).
Proof.
  intros [a sys0 | i o sys0 Hi].
  - unfold dispatch.
    pose proof (on_same_topQuestions constants a (store sys0)) as H.
    destruct (on constants a (store sys0)) as [[r s] log]. exact H.
  - unfold resolve. destruct (pending sys0 !! i) as [[request k] |]; [| reflexivity].
    pose proof (settle_same_topQuestions k o (store sys0)) as H.
    destruct (settle k o (store sys0)) as [[r s] log]. exact H.
Qed.

(** [self.topQuestions] stays undefined for the life of the page. *)
Lemma reachable_topQuestions (sys : system) :
  reachable constants sys → Store.topQuestions (store sys) = JUndefined.
Proof.
  unfold reachable. intros H.
  eapply (rtc_ind_r (λ sys, Store.topQuestions (store sys) = JUndefined) initial);
    [reflexivity | | exact H].
  intros sys1 sys2 _ Hstep IH. rewrite (step_topQuestions _ _ Hstep). exact IH.
Qed.

(** *** GET_TOP_QUESTIONS *)

(** The first branch: a conversation is running and there are no top
    questions yet. *)
Lemma GET_TOP_QUESTIONS_fetches (s : Store.t) (conversationId : string) :
  truthy (Conversation.conversationId (Store.conversation s)) = true →
  truthy (Conversation.topQuestions (Store.conversation s)) = false →
  ToString (Conversation.conversationId (Store.conversation s)) = inr conversationId →
  on constants GET_TOP_QUESTIONS s
    = (inr tt, s,
       [Fetch {| Request.url :=
                   Constants.conversationUrl constants +:+ conversationId
                   +:+ "/topQuestions";
                 Request.method := "get";
                 Request.headers := json_headers;
                 Request.body := no_body |}
              top_questions_chain]).
Proof. intros Hid Htop Hname. run. rewrite Hid, Htop. simpl. rewrite Hname. reflexivity. Qed.

(** The second branch: with top questions at hand the handler does
    nothing at all, on every store the page can reach. *)
Lemma GET_TOP_QUESTIONS_silent (sys : system) :
  reachable constants sys →
  truthy (Conversation.topQuestions (Store.conversation (store sys))) = true →
  on constants GET_TOP_QUESTIONS (store sys) = (inr tt, store sys, []).
Proof.
  intros Hreach Htop. run.
  rewrite Htop, (reachable_topQuestions _ Hreach), andb_false_r. reflexivity.
Qed.

End EventLoopFacts.

Lemma then_GET_TOP_QUESTIONS_stores (s : Store.t) (response : Response.t) (data tq : value) :
  Response.status response = 200%Z →
  Response.json response = inr data →
  get data "topQuestions" = inr tq →
  ∃ s', then_GET_TOP_QUESTIONS (Fulfilled response) s
          = (inr tt, s', [Trigger (TOP_QUESTIONS_BROADCAST tq) s'])
        ∧ Conversation.topQuestions (Store.conversation s') = tq.
Proof.
  intros Hstatus Hjson Htop. run.
  rewrite Hstatus. simpl. rewrite Hjson. simpl. rewrite Htop. simpl.
  eexists. split; reflexivity.
Qed.

(** The first branch on the store of a started conversation whose server
    sent no top questions: the request goes to /c1/topQuestions. *)
Example GET_TOP_QUESTIONS_c1 :
  let s := (then_CONVERSATION_START
              (Fulfilled (ok (JObj [("conversationId", JStr "c1")]))) ConversationStore).1.2 in
  (on sample_constants GET_TOP_QUESTIONS s).2
    = [Fetch {| Request.url := "/c1/topQuestions";
                Request.method := "get";
                Request.headers := json_headers;
                Request.body := no_body |}
             top_questions_chain].
Proof. reflexivity. Qed.


(** * The claims *)

(** A question that the sample stores send to the network *)
Ltac to_the_network :=
  split; [eexists; split; reflexivity | eexists; reflexivity].

(** C1. What the code does where the claim has GET_TOP_QUESTIONS
    rebroadcast the top questions it already has: once the conversation
    "c1" has started with the top questions ["q1", "q2"], a store the page
    reaches in two steps, GET_TOP_QUESTIONS makes no network call and
    triggers no broadcast either.  The [else if] of the handler tests
    [self.topQuestions], which is never assigned, where the claim (and the
    comment above the handler) read [self.conversation.topQuestions]. *)
Theorem GET_TOP_QUESTIONS_existing_not_rebroadcast :
  store (resolve 0 (Fulfilled (ok sample_start))
           (dispatch sample_constants CONVERSATION_START initial)) = sample_started
  ∧ Conversation.conversationId (Store.conversation sample_started) = JStr "c1"
  ∧ Conversation.topQuestions (Store.conversation sample_started)
      = JArr [JStr "q1"; JStr "q2"]
  ∧ on sample_constants GET_TOP_QUESTIONS sample_started = (inr tt, sample_started, []).
Proof. repeat split. Qed.

(** C2, as the code has it.  When the request of ASK_QUESTION is answered
    with status 200 and data whose fields are messageId [m], message [t]
    and responses [r], and [m] converts to a property name, the chain
    leaves a store whose cache gives [{message: t, responses: r}] under
    [m] and whose history is the old one with [m] appended at the end;
    ANSWER_RECEIVED_BROADCAST is triggered on that store, so its
    subscribers find the cache and the history updated. *)
Theorem ASK_QUESTION_answer_cached_before_broadcast
    (s : Store.t) (response : Response.t) (data m t r : value) (name : string) :
  Response.status response = 200%Z →
  Response.json response = inr data →
  get data "messageId" = inr m →
  get data "message" = inr t →
  get data "responses" = inr r →
  ToString m = inr name →
  ∃ s',
    then_ASK_QUESTION (Fulfilled response) s
      = (inr tt, s',
         [Trigger (ANSWER_RECEIVED_BROADCAST (Store.conversation s')) s';
          Trigger (ALTERNATIVE_QUESTION_BROADCAST (Store.conversation s')) s'])
    ∧ cached s' m = Some {| CachedMessage.message := t; CachedMessage.responses := r |}
    ∧ Store.questionHistory s' = Store.questionHistory s ++ [m].
Proof.
  intros Hstatus Hjson Hm Ht Hr Hname. exists (answered s name m t r).
  split; [| split].
  - exact (then_ASK_QUESTION_answer s response data m t r name
             Hstatus Hjson Hm Ht Hr Hname).
  - apply cached_found. exists name. split; [exact Hname | apply Cache_get_set].
  - reflexivity.
Qed.

Lemma ASK_QUESTION_answer_cached_before_broadcast_witness :
  ∃ s',
    then_ASK_QUESTION (Fulfilled (ok sample_answer)) sample_started
      = (inr tt, s',
         [Trigger (ANSWER_RECEIVED_BROADCAST (Store.conversation s')) s';
          Trigger (ALTERNATIVE_QUESTION_BROADCAST (Store.conversation s')) s'])
    ∧ cached s' (JStr "m1")
        = Some {| CachedMessage.message := JStr "hi";
                  CachedMessage.responses := JArr [JStr "r1"; JStr "r2"] |}
    ∧ Store.questionHistory s' = Store.questionHistory sample_started ++ [JStr "m1"].
Proof.
  apply (ASK_QUESTION_answer_cached_before_broadcast
           sample_started (ok sample_answer) sample_answer _ _ _ "m1");
    reflexivity.
Defined.

(** C2 as it is written fails for an answer whose messageId is the object
    [{"toString": 1}]: the response is a success with the three fields,
    but the assignment to the cache throws on the conversion of the
    identifier after the history has it, so the chain triggers
    SERVER_ERROR_BROADCAST and no ANSWER_RECEIVED_BROADCAST, and the cache
    gives nothing under the identifier. *)
Lemma ASK_QUESTION_answer_unconvertible_counterexample :
  let response := answer sample_object (JStr "hi") (JArr []) in
  let s' := pushed sample_started sample_object in
  Response.status response = 200%Z
  ∧ then_ASK_QUESTION (Fulfilled response) sample_started
    = (inr tt, s', [Trigger (SERVER_ERROR_BROADCAST NotPrimitive) s'])
  ∧ cached s' sample_object = None
  ∧ ¬ ∃ s'',
        then_ASK_QUESTION (Fulfilled response) sample_started
          = (inr tt, s'',
             [Trigger (ANSWER_RECEIVED_BROADCAST (Store.conversation s'')) s'';
              Trigger (ALTERNATIVE_QUESTION_BROADCAST (Store.conversation s'')) s''])
        ∧ cached s'' sample_object
            = Some {| CachedMessage.message := JStr "hi";
                      CachedMessage.responses := JArr [] |}
        ∧ Store.questionHistory s''
            = Store.questionHistory sample_started ++ [sample_object].
Proof.
  repeat split. intros (s'' & Hrun & _). discriminate Hrun.
Qed.




(** C4. CONVERSATION_START posts to the conversation URL.  When the
    response has a status other than 200, the chain triggers one
    SERVER_ERROR_BROADCAST, carrying the error made from the status text,
    and nothing else, and leaves the store (so [conversationId]) as it
    was.  When the status is 200 and the data has the fields
    conversationId [id] and topQuestions [top], the chain stores both and
    triggers CONVERSATION_STARTED_BROADCAST, then TOP_QUESTIONS_BROADCAST
    with [top]. *)
Theorem CONVERSATION_START_response
    (constants : Constants.t) (s : Store.t) (response : Response.t) :
  (∃ request,
      on constants CONVERSATION_START s = (inr tt, s, [Fetch request start_chain])
      ∧ Request.method request = "post"
      ∧ Request.url request = Constants.conversationUrl constants)
  ∧ (Response.status response ≠ 200%Z →
      settle start_chain (Fulfilled response) s
        = (inr tt, s,
           [Trigger (SERVER_ERROR_BROADCAST (Error (Response.statusText response))) s]))
  ∧ (∀ data id top,
      Response.status response = 200%Z →
      Response.json response = inr data →
      get data "conversationId" = inr id →
      get data "topQuestions" = inr top →
      ∃ s',
        settle start_chain (Fulfilled response) s
          = (inr tt, s',
             [Trigger (CONVERSATION_STARTED_BROADCAST (Store.conversation s')) s';
              Trigger (TOP_QUESTIONS_BROADCAST top) s'])
        ∧ Conversation.conversationId (Store.conversation s') = id
        ∧ Conversation.topQuestions (Store.conversation s') = top).
Proof.
  split; [| split].
  - eexists. split; [reflexivity | split; reflexivity].
  - intros Hstatus. run.
    destruct (Z.eqb_spec (Response.status response) 200) as [E | _]; [contradiction |].
    reflexivity.
  - intros data id top Hstatus Hjson Hid Htop. run.
    rewrite Hstatus. simpl. rewrite Hjson. simpl. rewrite Hid. simpl. rewrite Htop.
    exists (started s id top). split; [reflexivity | split; reflexivity].
Qed.

Lemma CONVERSATION_START_response_witness :
  settle start_chain (Fulfilled unavailable) ConversationStore
    = (inr tt, ConversationStore,
       [Trigger (SERVER_ERROR_BROADCAST (Error "Service Unavailable")) ConversationStore])
  ∧ ∃ s',
      settle start_chain (Fulfilled (ok sample_start)) ConversationStore
        = (inr tt, s',
           [Trigger (CONVERSATION_STARTED_BROADCAST (Store.conversation s')) s';
            Trigger (TOP_QUESTIONS_BROADCAST (JArr [JStr "q1"; JStr "q2"])) s'])
      ∧ Conversation.conversationId (Store.conversation s') = JStr "c1"
      ∧ Conversation.topQuestions (Store.conversation s') = JArr [JStr "q1"; JStr "q2"].
Proof.
  split.
  - apply (proj1 (proj2 (CONVERSATION_START_response
                           sample_constants ConversationStore unavailable))).
    simpl. lia.
  - apply (proj2 (proj2 (CONVERSATION_START_response
                           sample_constants ConversationStore (ok sample_start)))
                 sample_start);
      reflexivity.
Defined.

(** C5. Every chain looks at the status of the response before anything
    else.  The chain of the feedback calls accepts the statuses from 200
    up to, not including, 300; the chains of the calls that fetch content
    (conversation start, ask question, top questions) accept 200 only.  On
    any other status the chain triggers SERVER_ERROR_BROADCAST with the
    error made from the status text of the response, whatever the body,
    and leaves the store alone.  On an accepted status no such error is
    made: the feedback chain triggers nothing, and a content chain whose
    data can be read triggers no SERVER_ERROR_BROADCAST. *)
Theorem status_validated_then_reported
    (k : chain) (response : Response.t) (s : Store.t) :
  (accepts k (Response.status response) = false →
     settle k (Fulfilled response) s
       = (inr tt, s,
          [Trigger (SERVER_ERROR_BROADCAST (Error (Response.statusText response))) s]))
  ∧ (accepts k (Response.status response) = true →
     (k = feedback_chain → settle k (Fulfilled response) s = (inr tt, s, []))
     ∧ (∀ data,
          Response.json response = inr data →
          readable data = true →
          ∀ e, SERVER_ERROR_BROADCAST e ∉ broadcasts (settle k (Fulfilled response) s).2)).
Proof.
  split.
  - intros Hno. destruct k; simpl in Hno; run; try (rewrite Hno; reflexivity).
    rewrite Z.geb_leb.
    destruct (Z.ltb_spec (Response.status response) 200) as [Hlt | Hge];
      [reflexivity |].
    destruct (Z.leb_spec 300 (Response.status response)) as [Hle | Hlt];
      [reflexivity |].
    apply andb_false_iff in Hno as [Hno | Hno]; [apply Z.leb_gt in Hno | apply Z.ltb_ge in Hno]; lia.
  - intros Hyes.
    assert (Hfeedback : k = feedback_chain →
                        settle k (Fulfilled response) s = (inr tt, s, [])).
    { intros ->. simpl in Hyes. apply andb_true_iff in Hyes as [Hlo Hhi].
      apply Z.leb_le in Hlo. apply Z.ltb_lt in Hhi. run. rewrite Z.geb_leb.
      destruct (Z.ltb_spec (Response.status response) 200) as [Hlt | Hge]; [lia |].
      destruct (Z.leb_spec 300 (Response.status response)) as [Hle | Hlt]; [lia |].
      reflexivity. }
    split; [exact Hfeedback |].
    intros data Hjson Hread e.
    destruct k; simpl in Hyes.
    + destruct (get_readable data "conversationId" Hread) as [id Hid].
      destruct (get_readable data "topQuestions" Hread) as [top Htop].
      run. rewrite Hyes. simpl. rewrite Hjson. simpl. rewrite Hid. simpl. rewrite Htop.
      simpl. absent.
    + destruct (get_readable data "messageId" Hread) as [m Hm].
      destruct (get_readable data "message" Hread) as [t Ht].
      destruct (get_readable data "responses" Hread) as [r Hr].
      destruct (readable_messageId data m Hread Hm) as [name Hname].
      apply Z.eqb_eq in Hyes. unfold settle.
      rewrite (then_ASK_QUESTION_answer s response data m t r name
                 Hyes Hjson Hm Ht Hr Hname).
      simpl. absent.
    + rewrite (Hfeedback eq_refl). simpl. absent.
    + destruct (get_readable data "topQuestions" Hread) as [top Htop].
      run. rewrite Hyes. simpl. rewrite Hjson. simpl. rewrite Htop.
      simpl. absent.
Qed.

Lemma status_validated_then_reported_witness :
  settle ask_chain (Fulfilled unavailable) sample_started
    = (inr tt, sample_started,
       [Trigger (SERVER_ERROR_BROADCAST (Error "Service Unavailable")) sample_started])
  ∧ settle feedback_chain
      (Fulfilled (Response.Build 204 "No Content" (inl (Rejection "Unexpected end of input"))))
      sample_started
    = (inr tt, sample_started, [])
  ∧ ∀ e, SERVER_ERROR_BROADCAST e
           ∉ broadcasts (settle ask_chain (Fulfilled (ok sample_answer)) sample_started).2.
Proof.
  split; [| split].
  - apply (proj1 (status_validated_then_reported ask_chain unavailable sample_started)).
    reflexivity.
  - apply (proj1 (proj2 (status_validated_then_reported feedback_chain
                           (Response.Build 204 "No Content"
                              (inl (Rejection "Unexpected end of input")))
                           sample_started) eq_refl)).
    reflexivity.
  - apply (proj2 (proj2 (status_validated_then_reported ask_chain
                           (ok sample_answer) sample_started) eq_refl)
                 sample_answer);
      reflexivity.
Defined.

(** C6. On the network path of ASK_QUESTION the handler posts a request
    body built from the question.  With a referrer equal to the refinement
    query type (a non-empty string of constants.js), the body has a
    referrer object whose source is that referrer and whose messageId is
    the current messageId of the conversation.  With any other truthy
    referrer, the referrer object has the source and no messageId. *)
Theorem ASK_QUESTION_referrer
    (constants : Constants.t) (question : Question.t) (s : Store.t) :
  Constants.refinementQueryType constants ≠ "" →
  network_path s question →
  ∃ request requestBody,
    on constants (ASK_QUESTION question) s
      = (inr tt, s, [Trigger ASKING_QUESTION_BROADCAST s; Fetch request ask_chain])
    ∧ Request.method request = "post"
    ∧ Request.body request = stringify_requestBody requestBody
    ∧ (Question.referrer question = JStr (Constants.refinementQueryType constants) →
         RequestBody.referrer requestBody
           = Some {| Referrer.source := Question.referrer question;
                     Referrer.messageId :=
                       Some (Conversation.messageId (Store.conversation s)) |})
    ∧ (truthy (Question.referrer question) = true →
       Question.referrer question ≠ JStr (Constants.refinementQueryType constants) →
         RequestBody.referrer requestBody
           = Some {| Referrer.source := Question.referrer question;
                     Referrer.messageId := None |}).
Proof.
  intros Hconst Hmiss.
  destruct (ASK_QUESTION_miss constants question s Hmiss) as (id & _ & Hrun).
  eexists. exists (requestBody constants question s).
  split; [exact Hrun | split; [| split; [| split]]].
  - reflexivity.
  - reflexivity.
  - intros Href. unfold requestBody. simpl. rewrite Href. simpl.
    rewrite String.eqb_refl.
    destruct (String.eqb_spec (Constants.refinementQueryType constants) "") as [E | _];
      [contradiction | reflexivity].
  - intros Htruthy Hother. unfold requestBody. simpl. rewrite Htruthy.
    destruct (strict_equal (Question.referrer question)
                (JStr (Constants.refinementQueryType constants))) eqn:E; [| reflexivity].
    apply strict_equal_JStr in E. contradiction.
Qed.

Lemma ASK_QUESTION_referrer_witness :
  ∃ request requestBody,
    on sample_constants
       (ASK_QUESTION (Question.Build JUndefined (JStr "why") (JStr "REFINEMENT")))
       sample_answered
      = (inr tt, sample_answered,
         [Trigger ASKING_QUESTION_BROADCAST sample_answered; Fetch request ask_chain])
    ∧ RequestBody.referrer requestBody
        = Some {| Referrer.source := JStr "REFINEMENT";
                  Referrer.messageId := Some (JStr "m1") |}
    ∧ Request.body request = stringify_requestBody requestBody.
Proof.
  destruct (ASK_QUESTION_referrer sample_constants
              (Question.Build JUndefined (JStr "why") (JStr "REFINEMENT")) sample_answered)
    as (request & requestBody & Hrun & _ & Hbody & Hrefinement & _).
  - discriminate.
  - to_the_network.
  - exists request, requestBody. split; [exact Hrun | split; [| exact Hbody]].
    apply Hrefinement. reflexivity.
Defined.

(** C7. Each of NONE_OF_THE_ABOVE_CLICKED, NEGATIVE_FEEDBACK_GIVEN and
    POSITIVE_FEEDBACK_GIVEN triggers its broadcast first and hands the
    feedback request to [fetch] after it, without touching the store; when
    the handler returns the request is still pending.  In every
    continuation of the execution the broadcast stays in front of the
    request and of everything that happens later, the settling of the
    request included. *)
Theorem feedback_broadcast_before_settlement
    (constants : Constants.t) (a : action) (b : broadcast) (sys : system) :
  immediate a = Some b →
  ∃ request,
    dispatch constants a sys
      = {| store := store sys;
           pending := pending sys ++ [(request, feedback_chain)];
           trace := trace sys ++ [Trigger b (store sys); Fetch request feedback_chain] |}
    ∧ Request.url request = Constants.feedbackUrl constants
    ∧ ∀ sys',
        rtc (step constants) (dispatch constants a sys) sys' →
        ∃ later,
          trace sys'
            = trace sys ++ [Trigger b (store sys); Fetch request feedback_chain] ++ later.
Proof.
  intros Himmediate.
  assert (∃ request,
            dispatch constants a sys
              = {| store := store sys;
                   pending := pending sys ++ [(request, feedback_chain)];
                   trace := trace sys
                            ++ [Trigger b (store sys); Fetch request feedback_chain] |}
            ∧ Request.url request = Constants.feedbackUrl constants)
    as (request & Hdispatch & Hurl).
  { destruct a; simpl in Himmediate; try discriminate;
      injection Himmediate as <-; eexists; split; reflexivity. }
  exists request. split; [exact Hdispatch | split; [exact Hurl |]].
  intros sys' Hsteps. destruct (steps_trace _ _ _ Hsteps) as [later Hlater].
  exists later. rewrite Hlater, Hdispatch. simpl. rewrite <- app_assoc. reflexivity.
Qed.

Lemma feedback_broadcast_before_settlement_witness :
  ∃ request,
    dispatch sample_constants NEGATIVE_FEEDBACK_GIVEN initial
      = {| store := ConversationStore;
           pending := [(request, feedback_chain)];
           trace := [Trigger NEGATIVE_FEEDBACK_RECEIVED_BROADCAST ConversationStore;
                     Fetch request feedback_chain] |}
    ∧ ∃ later,
        trace (resolve 0 (Fulfilled unavailable)
                 (dispatch sample_constants NEGATIVE_FEEDBACK_GIVEN initial))
          = [Trigger NEGATIVE_FEEDBACK_RECEIVED_BROADCAST ConversationStore;
             Fetch request feedback_chain] ++ later.
Proof.
  destruct (feedback_broadcast_before_settlement sample_constants
              NEGATIVE_FEEDBACK_GIVEN NEGATIVE_FEEDBACK_RECEIVED_BROADCAST initial)
    as (request & Hdispatch & _ & Hlater).
  - reflexivity.
  - exists request. split; [exact Hdispatch |].
    apply Hlater. apply rtc_once. apply step_resolve. eexists. reflexivity.
Defined.




(** C9. ASK_QUESTION served from the cache (a truthy messageId with an
    entry) hands nothing to [fetch] and leaves the cache and the history
    as they were, so the replayed messageId is not appended again; of the
    conversation, [conversationId] and [topQuestions] stay, and message,
    messageId and responses are assigned from the entry and the
    question. *)
Theorem ASK_QUESTION_replay_frame
    (constants : Constants.t) (question : Question.t) (s : Store.t)
    (cachedMessage : CachedMessage.t) :
  truthy (Question.messageId question) = true →
  cached s (Question.messageId question) = Some cachedMessage →
  ∃ s' log,
    on constants (ASK_QUESTION question) s = (inr tt, s', log)
    ∧ fetches log = []
    ∧ Store.questionCache s' = Store.questionCache s
    ∧ Store.questionHistory s' = Store.questionHistory s
    ∧ Conversation.conversationId (Store.conversation s')
        = Conversation.conversationId (Store.conversation s)
    ∧ Conversation.topQuestions (Store.conversation s')
        = Conversation.topQuestions (Store.conversation s)
    ∧ Conversation.message (Store.conversation s') = CachedMessage.message cachedMessage
    ∧ Conversation.messageId (Store.conversation s') = Question.messageId question
    ∧ Conversation.responses (Store.conversation s')
        = CachedMessage.responses cachedMessage.
Proof.
  intros Htruthy Hcached.
  exists (recalled s (Question.messageId question) cachedMessage). eexists.
  split; [apply ASK_QUESTION_hit; assumption |].
  repeat split.
Qed.

Lemma ASK_QUESTION_replay_frame_witness :
  ∃ s' log,
    on sample_constants
       (ASK_QUESTION (Question.Build (JStr "m1") JUndefined JUndefined)) sample_answered2
      = (inr tt, s', log)
    ∧ fetches log = []
    ∧ Store.questionCache s' = Store.questionCache sample_answered2
    ∧ Store.questionHistory s' = [JStr "m1"; JStr "m2"]
    ∧ Conversation.conversationId (Store.conversation s') = JStr "c1"
    ∧ Conversation.topQuestions (Store.conversation s') = JArr [JStr "q1"; JStr "q2"]
    ∧ Conversation.message (Store.conversation s') = JStr "hi"
    ∧ Conversation.messageId (Store.conversation s') = JStr "m1"
    ∧ Conversation.responses (Store.conversation s') = JArr [JStr "r1"; JStr "r2"].
Proof.
  apply (ASK_QUESTION_replay_frame sample_constants
           (Question.Build (JStr "m1") JUndefined JUndefined) sample_answered2
           (CachedMessage.Build (JStr "hi") (JArr [JStr "r1"; JStr "r2"])));
    reflexivity.
Defined.

(** C10. On the network path of ASK_QUESTION the request body has a
    message field exactly when the message of the question is truthy, and
    then it is that message; it has a referrer field exactly when the
    referrer of the question is truthy.  An empty string as message or as
    referrer leaves the field out of the body. *)
Theorem ASK_QUESTION_body_fields
    (constants : Constants.t) (question : Question.t) (s : Store.t) :
  network_path s question →
  ∃ request requestBody,
    on constants (ASK_QUESTION question) s
      = (inr tt, s, [Trigger ASKING_QUESTION_BROADCAST s; Fetch request ask_chain])
    ∧ Request.body request = stringify_requestBody requestBody
    ∧ (is_Some (RequestBody.message requestBody)
         ↔ truthy (Question.message question) = true)
    ∧ (truthy (Question.message question) = true →
         RequestBody.message requestBody = Some (Question.message question))
    ∧ (is_Some (RequestBody.referrer requestBody)
         ↔ truthy (Question.referrer question) = true)
    ∧ (Question.message question = JStr "" → RequestBody.message requestBody = None)
    ∧ (Question.referrer question = JStr "" → RequestBody.referrer requestBody = None).
Proof.
  intros Hmiss.
  destruct (ASK_QUESTION_miss constants question s Hmiss) as (id & _ & Hrun).
  eexists. exists (requestBody constants question s).
  split; [exact Hrun | split; [| split; [| split; [| split; [| split]]]]].
  - reflexivity.
  - unfold requestBody. simpl. destruct (truthy (Question.message question)).
    + split; [reflexivity | eauto].
    + split; [intros [x Hx]; discriminate | discriminate].
  - unfold requestBody. simpl. intros ->. reflexivity.
  - unfold requestBody. simpl. destruct (truthy (Question.referrer question)).
    + split; [reflexivity | eauto].
    + split; [intros [x Hx]; discriminate | discriminate].
  - unfold requestBody. simpl. intros ->. reflexivity.
  - unfold requestBody. simpl. intros ->. reflexivity.
Qed.

Lemma ASK_QUESTION_body_fields_witness :
  ∃ request requestBody,
    on sample_constants
       (ASK_QUESTION (Question.Build JUndefined (JStr "") (JStr ""))) sample_started
      = (inr tt, sample_started,
         [Trigger ASKING_QUESTION_BROADCAST sample_started; Fetch request ask_chain])
    ∧ Request.body request = stringify_requestBody requestBody
    ∧ RequestBody.message requestBody = None
    ∧ RequestBody.referrer requestBody = None.
Proof.
  destruct (ASK_QUESTION_body_fields sample_constants
              (Question.Build JUndefined (JStr "") (JStr "")) sample_started)
    as (request & requestBody & Hrun & Hbody & _ & _ & _ & Hmessage & Hreferrer).
  - to_the_network.
  - exists request, requestBody.
    split; [exact Hrun | split; [exact Hbody | split]].
    + apply Hmessage. reflexivity.
    + apply Hreferrer. reflexivity.
Defined.

(** * Further properties of the store *)

(** ** How a chain can end *)

Lemma get_read (data : value) (name : string) :
  nullish data = false → get data name = inr (read data name).
Proof. destruct data; simpl; try discriminate; reflexivity. Qed.

Lemma get_nullish (data : value) (name : string) :
  nullish data = true → get data name = inl (TypeError name).
Proof. destruct data; simpl; try discriminate; reflexivity. Qed.

Lemma then_CONVERSATION_START_cases (o : settlement) (s : Store.t) :
  (∃ e, then_CONVERSATION_START o s
          = (inr tt, s, [Trigger (SERVER_ERROR_BROADCAST e) s]))
  ∨ (∃ id top,
       then_CONVERSATION_START o s
         = (inr tt, started s id top,
            [Trigger (CONVERSATION_STARTED_BROADCAST (Store.conversation (started s id top)))
                     (started s id top);
             Trigger (TOP_QUESTIONS_BROADCAST top) (started s id top)])).
Proof.
  destruct o as [response | reason]; [| left; eexists; reflexivity].
  run. simpl.
  destruct (Response.status response =? 200)%Z; [| left; eexists; reflexivity].
  simpl. destruct (Response.json response) as [e | data]; [left; eexists; reflexivity |].
  simpl. destruct (nullish data) eqn:Hnull.
  - rewrite (get_nullish _ _ Hnull). left. eexists. reflexivity.
  - rewrite (get_read data "conversationId" Hnull). simpl.
    rewrite (get_read data "topQuestions" Hnull).
    right. exists (read data "conversationId"), (read data "topQuestions"). reflexivity.
Qed.

Lemma then_ASK_QUESTION_cases (o : settlement) (s : Store.t) :
  (∃ e, then_ASK_QUESTION o s = (inr tt, s, [Trigger (SERVER_ERROR_BROADCAST e) s]))
  ∨ (∃ m e,
       ToString m = inl e
       ∧ then_ASK_QUESTION o s
         = (inr tt, pushed s m, [Trigger (SERVER_ERROR_BROADCAST e) (pushed s m)]))
  ∨ (∃ name m t r,
       ToString m = inr name
       ∧ then_ASK_QUESTION o s
         = (inr tt, answered s name m t r,
            [Trigger (ANSWER_RECEIVED_BROADCAST (Store.conversation (answered s name m t r)))
                     (answered s name m t r);
             Trigger (ALTERNATIVE_QUESTION_BROADCAST
                        (Store.conversation (answered s name m t r)))
                     (answered s name m t r)])).
Proof.
  destruct o as [response | reason]; [| left; eexists; reflexivity].
  destruct (Z.eqb_spec (Response.status response) 200) as [Hstatus | Hstatus].
  - destruct (Response.json response) as [e | data] eqn:Hjson.
    + left. exists e. run. rewrite Hstatus. simpl. rewrite Hjson. reflexivity.
    + destruct (nullish data) eqn:Hnull.
      * left. eexists. run. rewrite Hstatus. simpl. rewrite Hjson. simpl.
        rewrite (get_nullish _ _ Hnull). reflexivity.
      * pose proof (get_read data "messageId" Hnull) as Hm.
        pose proof (get_read data "message" Hnull) as Ht.
        pose proof (get_read data "responses" Hnull) as Hr.
        destruct (ToString (read data "messageId")) as [e | name] eqn:Hname.
        -- right. left. exists (read data "messageId"), e. split; [exact Hname |].
           exact (then_ASK_QUESTION_half_written s response data _ _ _ e
                    Hstatus Hjson Hm Ht Hr Hname).
        -- right. right.
           exists name, (read data "messageId"), (read data "message"),
                  (read data "responses").
           split; [exact Hname |].
           exact (then_ASK_QUESTION_answer s response data _ _ _ name
                    Hstatus Hjson Hm Ht Hr Hname).
  - left. eexists. run.
    destruct (Z.eqb_spec (Response.status response) 200); [contradiction |].
    reflexivity.
Qed.

Lemma then_feedback_cases (o : settlement) (s : Store.t) :
  (∃ e, then_feedback o s = (inr tt, s, [Trigger (SERVER_ERROR_BROADCAST e) s]))
  ∨ then_feedback o s = (inr tt, s, []).
Proof.
  destruct o as [response | reason]; [| left; eexists; reflexivity].
  run. simpl.
  destruct ((Response.status response <? 200)%Z || (Response.status response >=? 300)%Z);
    [left; eexists; reflexivity | right; reflexivity].
Qed.

Lemma then_GET_TOP_QUESTIONS_cases (o : settlement) (s : Store.t) :
  (∃ e, then_GET_TOP_QUESTIONS o s
          = (inr tt, s, [Trigger (SERVER_ERROR_BROADCAST e) s]))
  ∨ (∃ top,
       let s' := started s (Conversation.conversationId (Store.conversation s)) top in
       then_GET_TOP_QUESTIONS o s
         = (inr tt, s', [Trigger (TOP_QUESTIONS_BROADCAST top) s'])).
Proof.
  destruct o as [response | reason]; [| left; eexists; reflexivity].
  run. simpl.
  destruct (Response.status response =? 200)%Z; [| left; eexists; reflexivity].
  simpl. destruct (Response.json response) as [e | data]; [left; eexists; reflexivity |].
  simpl. destruct (nullish data) eqn:Hnull.
  - rewrite (get_nullish _ _ Hnull). left. eexists. reflexivity.
  - rewrite (get_read _ _ Hnull). right. exists (read data "topQuestions"). reflexivity.
Qed.


(** X2. A request that fails on the network is reported with the reason
    of the rejection.  For the calls that fetch content, a response with
    status 200 whose body does not parse is reported with the error of the
    parser, and one whose data is [null] with the TypeError of the first
    property the chain reads: conversationId for CONVERSATION_START,
    messageId for ASK_QUESTION, topQuestions for GET_TOP_QUESTIONS.  In
    all three cases that broadcast is the only effect and the store stays
    as it was. *)
Theorem unusable_response_reported (k : chain) (s : Store.t) :
  (∀ reason,
     settle k (Rejected reason) s
       = (inr tt, s, [Trigger (SERVER_ERROR_BROADCAST reason) s]))
  ∧ (∀ response e,
       k ≠ feedback_chain →
       Response.status response = 200%Z →
       Response.json response = inl e →
       settle k (Fulfilled response) s
         = (inr tt, s, [Trigger (SERVER_ERROR_BROADCAST e) s]))
  ∧ (∀ response,
       k ≠ feedback_chain →
       Response.status response = 200%Z →
       Response.json response = inr JNull →
       settle k (Fulfilled response) s
         = (inr tt, s, [Trigger (SERVER_ERROR_BROADCAST (TypeError (first_read k))) s])).
Proof.
  split; [| split].
  - intros reason. destruct k; reflexivity.
  - intros response e Hk Hstatus Hjson.
    destruct k; try contradiction; run; rewrite Hstatus; simpl; rewrite Hjson; reflexivity.
  - intros response Hk Hstatus Hjson.
    destruct k; try contradiction; run; rewrite Hstatus; simpl; rewrite Hjson;
      reflexivity.
Qed.

Lemma unusable_response_reported_witness :
  settle ask_chain
    (Fulfilled (Response.Build 200 "OK" (inl (Rejection "Unexpected token <"))))
    sample_started
    = (inr tt, sample_started,
       [Trigger (SERVER_ERROR_BROADCAST (Rejection "Unexpected token <")) sample_started])
  ∧ settle start_chain (Fulfilled (ok JNull)) ConversationStore
    = (inr tt, ConversationStore,
       [Trigger (SERVER_ERROR_BROADCAST (TypeError "conversationId")) ConversationStore]).
Proof.
  split.
  - apply (proj1 (proj2 (unusable_response_reported ask_chain sample_started)));
      [discriminate | reflexivity | reflexivity].
  - apply (proj2 (proj2 (unusable_response_reported start_chain ConversationStore)));
      [discriminate | reflexivity | reflexivity].
Defined.

(** ** What each handler and each chain can change *)

Lemma on_store_cases (constants : Constants.t) (a : action) (s : Store.t) :
  (on constants a s).1.2 = s
  ∨ (recalls a = true
     ∧ ∃ messageId cachedMessage,
         (on constants a s).1.2 = recalled s messageId cachedMessage).
Proof.
  destruct a as [| question | | | | messageId | question | question | |];
    try (left; reflexivity).
  - destruct (ToString (Question.messageId question)) as [e | name] eqn:Hname.
    { left. rewrite (ASK_QUESTION_throws constants question s e Hname). reflexivity. }
    destruct (truthy (Question.messageId question)
              && truthy_found (Cache_get (Store.questionCache s) name)) eqn:Htest.
    + right. split; [reflexivity |]. do 2 eexists.
      rewrite (ASK_QUESTION_recalls constants question s name Hname Htest). reflexivity.
    + left.
      destruct (ToString (Conversation.conversationId (Store.conversation s)))
        as [e | id] eqn:Hid.
      * rewrite (ASK_QUESTION_url_throws constants question s name e Hname Htest Hid).
        reflexivity.
      * rewrite (ASK_QUESTION_posts constants question s name id Hname Htest Hid).
        reflexivity.
  - destruct (ToString (Question.messageId question)) as [e | name] eqn:Hname.
    { left. rewrite (SET_CURRENT_QUESTION_throws constants question s e Hname).
      reflexivity. }
    destruct (truthy (Question.messageId question)
              && truthy_found (Cache_get (Store.questionCache s) name)) eqn:Htest.
    + right. split; [reflexivity |]. do 2 eexists.
      rewrite (SET_CURRENT_QUESTION_recalls constants question s name Hname Htest).
      reflexivity.
    + left. rewrite (SET_CURRENT_QUESTION_skips constants question s name Hname Htest).
      reflexivity.
  - left.
    destruct (ToString (Question.messageId question)) as [e | name] eqn:Hname.
    { rewrite (UPDATE_REFINEMENT_QUESTIONS_throws constants question s e Hname).
      reflexivity. }
    destruct (truthy (Question.messageId question)
              && truthy_found (Cache_get (Store.questionCache s) name)) eqn:Htest.
    + rewrite (UPDATE_REFINEMENT_QUESTIONS_recalls constants question s name Hname Htest).
      reflexivity.
    + rewrite (UPDATE_REFINEMENT_QUESTIONS_skips constants question s name Hname Htest).
      reflexivity.
  - left. run.
    destruct (truthy (Conversation.conversationId (Store.conversation s))
              && negb (truthy (Conversation.topQuestions (Store.conversation s)))).
    + simpl.
      destruct (ToString (Conversation.conversationId (Store.conversation s)));
        reflexivity.
    + simpl. destruct (truthy (Store.topQuestions s)); reflexivity.
Qed.

Lemma settle_store_cases (k : chain) (o : settlement) (s : Store.t) :
  (settle k o s).1.2 = s
  ∨ (k = start_chain ∧ ∃ id top, (settle k o s).1.2 = started s id top)
  ∨ (k = top_questions_chain
     ∧ ∃ top, (settle k o s).1.2
              = started s (Conversation.conversationId (Store.conversation s)) top)
  ∨ (k = ask_chain
     ∧ ∃ name m t r, ToString m = inr name ∧ (settle k o s).1.2 = answered s name m t r)
  ∨ (k = ask_chain
     ∧ ∃ m e, ToString m = inl e ∧ (settle k o s).1.2 = pushed s m).
Proof.
  destruct k; simpl.
  - destruct (then_CONVERSATION_START_cases o s) as [[e H] | (id & top & H)]; rewrite H.
    + left. reflexivity.
    + right. left. split; [reflexivity |]. exists id, top. reflexivity.
  - destruct (then_ASK_QUESTION_cases o s)
      as [[e H] | [(m & e & Hm & H) | (name & m & t & r & Hm & H)]]; rewrite H.
    + left. reflexivity.
    + do 4 right. split; [reflexivity |]. exists m, e. split; [exact Hm | reflexivity].
    + do 3 right. left. split; [reflexivity |]. exists name, m, t, r.
      split; [exact Hm | reflexivity].
  - destruct (then_feedback_cases o s) as [[e H] | H]; rewrite H; left; reflexivity.
  - destruct (then_GET_TOP_QUESTIONS_cases o s) as [[e H] | (top & H)];
      simpl in H; rewrite H.
    + left. reflexivity.
    + right. right. left. split; [reflexivity |]. exists top. reflexivity.
Qed.



(** X4. Before it returns, a handler never touches the cache, the
    history, [conversationId] or the top questions of the conversation;
    and a handler other than those of ASK_QUESTION and
    SET_CURRENT_QUESTION leaves the whole store as it was. *)
Theorem handlers_frame (constants : Constants.t) (a : action) (s : Store.t) :
  let s' := (on constants a s).1.2 in
  Store.questionCache s' = Store.questionCache s
  ∧ Store.questionHistory s' = Store.questionHistory s
  ∧ Conversation.conversationId (Store.conversation s')
      = Conversation.conversationId (Store.conversation s)
  ∧ Conversation.topQuestions (Store.conversation s')
      = Conversation.topQuestions (Store.conversation s)
  ∧ (recalls a = false → s' = s).
Proof.
  simpl.
  destruct (on_store_cases constants a s) as [H | (Hrecalls & messageId & cm & H)];
    rewrite H.
  - repeat split.
  - repeat split. rewrite Hrecalls. discriminate.
Qed.

Lemma handlers_frame_witness :
  (on sample_constants (FORUM_BUTTON_PRESSED (JStr "m1")) sample_answered2).1.2
    = sample_answered2.
Proof.
  apply (proj2 (proj2 (proj2 (proj2
           (handlers_frame sample_constants (FORUM_BUTTON_PRESSED (JStr "m1"))
              sample_answered2))))).
  reflexivity.
Defined.

(** X5. What a chain can change when its request settles: only the chain
    of CONVERSATION_START changes [conversationId]; only that chain and
    the chain of GET_TOP_QUESTIONS change the top questions of the
    conversation; only the chain of ASK_QUESTION changes the cache, the
    history and the message, messageId and responses of the conversation.
    So starting a conversation again keeps the cache and the history of
    the one before. *)
Theorem chains_frame (k : chain) (o : settlement) (s : Store.t) :
  let s' := (settle k o s).1.2 in
  (k ≠ start_chain →
     Conversation.conversationId (Store.conversation s')
       = Conversation.conversationId (Store.conversation s))
  ∧ (k ≠ start_chain → k ≠ top_questions_chain →
     Conversation.topQuestions (Store.conversation s')
       = Conversation.topQuestions (Store.conversation s))
  ∧ (k ≠ ask_chain →
     Store.questionCache s' = Store.questionCache s
     ∧ Store.questionHistory s' = Store.questionHistory s
     ∧ Conversation.message (Store.conversation s')
         = Conversation.message (Store.conversation s)
     ∧ Conversation.messageId (Store.conversation s')
         = Conversation.messageId (Store.conversation s)
     ∧ Conversation.responses (Store.conversation s')
         = Conversation.responses (Store.conversation s)).
Proof.
  simpl.
  destruct (settle_store_cases k o s)
    as [H | [(Hk & id & top & H) | [(Hk & top & H)
         | [(Hk & name & m & t & r & Hm & H) | (Hk & m & e & Hm & H)]]]];
    rewrite H; repeat split; intros; try reflexivity; try contradiction.
Qed.

Lemma chains_frame_witness :
  Store.questionCache (settle start_chain (Fulfilled (ok sample_start)) sample_answered2).1.2
    = Store.questionCache sample_answered2
  ∧ Store.questionHistory
      (settle start_chain (Fulfilled (ok sample_start)) sample_answered2).1.2
    = [JStr "m1"; JStr "m2"]
  ∧ Conversation.conversationId
      (Store.conversation (settle ask_chain (Fulfilled (ok sample_answer)) sample_started).1.2)
    = JStr "c1".
Proof.
  split; [| split].
  - apply (proj2 (proj2 (chains_frame start_chain (Fulfilled (ok sample_start))
                           sample_answered2))).
    discriminate.
  - apply (proj2 (proj2 (chains_frame start_chain (Fulfilled (ok sample_start))
                           sample_answered2))).
    discriminate.
  - apply (proj1 (chains_frame ask_chain (Fulfilled (ok sample_answer)) sample_started)).
    discriminate.
Defined.


(** ** The cache and the history over the life of the page *)

Lemma sample_system_reachable : reachable sample_constants sample_system.
Proof.
  unfold reachable, sample_system.
  eapply rtc_r; [| apply step_resolve; eexists; reflexivity].
  eapply rtc_r; [| apply step_dispatch].
  eapply rtc_r; [| apply step_resolve; eexists; reflexivity].
  apply rtc_once. apply step_dispatch.
Qed.

Lemma sample_system2_reachable : reachable sample_constants sample_system2.
Proof.
  unfold reachable, sample_system2.
  eapply rtc_r; [| apply step_resolve; eexists; reflexivity].
  eapply rtc_r; [| apply step_dispatch].
  exact sample_system_reachable.
Qed.

Lemma step_store_cases (constants : Constants.t) (sys sys' : system) :
  step constants sys sys' →
  (Store.questionCache (store sys') = Store.questionCache (store sys)
   ∧ Store.questionHistory (store sys') = Store.questionHistory (store sys))
  ∨ (∃ name m t r,
       ToString m = inr name ∧ store sys' = answered (store sys) name m t r)
  ∨ (∃ m e, ToString m = inl e ∧ store sys' = pushed (store sys) m).
Proof.
  intros [a sys0 | i o sys0 Hi].
  - left. unfold dispatch.
    pose proof (handlers_frame constants a (store sys0)) as (Hc & Hh & _).
    destruct (on constants a (store sys0)) as [[r s] log]. split; assumption.
  - unfold resolve. destruct (pending sys0 !! i) as [[request k] |]; [| left; split; reflexivity].
    pose proof (settle_store_cases k o (store sys0)) as H.
    destruct (settle k o (store sys0)) as [[r s] log]. simpl in *.
    destruct H as [-> | [(_ & id & top & ->) | [(_ & top & ->)
                  | [(_ & name & m & t & r0 & Hm & ->) | (_ & m & e & Hm & ->)]]]];
      [left; split; reflexivity .. | |].
    + right. left. exists name, m, t, r0. split; [exact Hm | reflexivity].
    + right. right. exists m, e. split; [exact Hm | reflexivity].
Qed.

(** The names under which the cache gives an entry after an assignment *)
Lemma gives_entry_set (cache : Cache.t) (name other : string) (entry : CachedMessage.t) :
  gives_entry (Cache_set cache name entry) other
  ↔ other = name ∨ gives_entry cache other.
Proof.
  unfold gives_entry. split.
  - destruct (decide (other = name)) as [-> | Hne]; [left; reflexivity |].
    intros [found Hfound]. right. revert Hfound.
    unfold Cache_get, Cache_set.
    destruct (String.eqb_spec other "__proto__") as [-> | Hother].
    + destruct (String.eqb_spec name "__proto__") as [-> | Hname]; [contradiction |].
      simpl. eauto.
    + destruct (String.eqb_spec name "__proto__") as [-> | Hname]; simpl.
      * destruct (Cache.own cache !! other) as [own |]; [eauto |].
        repeat case_match; unfold Object_prototype_get; repeat case_match; discriminate.
      * rewrite lookup_insert_ne by congruence.
        destruct (Cache.own cache !! other) as [own |]; [eauto |].
        destruct (Cache.prototype cache) as [p |];
          repeat case_match; unfold Object_prototype_get; repeat case_match;
          try discriminate; eauto.
  - intros [-> | [found Hfound]].
    + eexists. apply Cache_get_set.
    + destruct (decide (other = name)) as [-> | Hne].
      * eexists. apply Cache_get_set.
      * exists found. apply Cache_get_set_other; assumption.
Qed.

Lemma history_keys_answered (s : Store.t) (name : string) (m t r : value) :
  ToString m = inr name →
  history_keys (answered s name m t r) = history_keys s ∪ {[name]}.
Proof.
  intros Hm. unfold history_keys, answered. simpl.
  rewrite omap_app. simpl. unfold name_of at 2. rewrite Hm.
  apply list_to_set_snoc_L.
Qed.

Lemma history_keys_pushed (s : Store.t) (m : value) (e : error) :
  ToString m = inl e → history_keys (pushed s m) = history_keys s.
Proof.
  intros Hm. unfold history_keys, pushed. simpl.
  rewrite omap_app. simpl. unfold name_of at 2. rewrite Hm. simpl.
  rewrite app_nil_r. reflexivity.
Qed.

(** On every store of the page, the names under which the cache gives an
    entry are the property names of the identifiers in the history. *)
Lemma reachable_entries (constants : Constants.t) (sys : system) :
  reachable constants sys →
  ∀ name, gives_entry (Store.questionCache (store sys)) name
          ↔ name ∈ history_keys (store sys).
Proof.
  unfold reachable. intros H.
  eapply (rtc_ind_r
            (λ sys, ∀ name, gives_entry (Store.questionCache (store sys)) name
                            ↔ name ∈ history_keys (store sys))
            initial); [| | exact H].
  - intros name. unfold history_keys, gives_entry, Cache_get. simpl.
    rewrite lookup_empty, elem_of_empty.
    split; [| contradiction].
    intros [entry Hentry]. revert Hentry.
    unfold Object_prototype_get. repeat case_match; discriminate.
  - intros sys1 sys2 _ Hstep IH name.
    destruct (step_store_cases _ _ _ Hstep)
      as [[Hc Hh] | [(key & m & t & r & Hm & Hs) | (m & e & Hm & Hs)]].
    + unfold history_keys. rewrite Hc, Hh. apply IH.
    + rewrite Hs, (history_keys_answered _ _ _ _ _ Hm).
      change (Store.questionCache (answered (store sys1) key m t r))
        with (Cache_set (Store.questionCache (store sys1)) key
                {| CachedMessage.message := t; CachedMessage.responses := r |}).
      rewrite gives_entry_set, elem_of_union, elem_of_singleton, IH. tauto.
    + rewrite Hs, (history_keys_pushed _ _ _ Hm). apply IH.
Qed.

(** X6. On every store reachable from the constructor through any
    sequence of actions and settlements, and for every identifier that
    converts to a property name: the cache gives an entry under the
    identifier exactly when the history holds an identifier with the same
    property name.  Nothing is cached without being logged; and of what is
    logged, only the identifiers that do not convert are missing from the
    cache. *)
Theorem cached_iff_in_history
    (constants : Constants.t) (sys : system) (m : value) (name : string) :
  reachable constants sys →
  ToString m = inr name →
  is_Some (cached (store sys) m) ↔ name ∈ history_keys (store sys).
Proof.
  intros Hreach Hm. rewrite <- (reachable_entries _ _ Hreach name).
  unfold gives_entry. split.
  - intros [entry Hentry]. apply cached_found in Hentry as (name' & Hname' & Hget).
    rewrite Hm in Hname'. injection Hname' as <-. eauto.
  - intros [entry Hentry]. exists entry. apply cached_found. eauto.
Qed.

Lemma cached_iff_in_history_witness :
  (is_Some (cached (store sample_system2) (JStr "m2"))
   ↔ "m2" ∈ history_keys (store sample_system2))
  ∧ (is_Some (cached (store sample_system2) (JStr "constructor"))
     ↔ "constructor" ∈ history_keys (store sample_system2)).
Proof.
  split.
  - apply (cached_iff_in_history sample_constants sample_system2 (JStr "m2") "m2");
      [exact sample_system2_reachable | reflexivity].
  - apply (cached_iff_in_history sample_constants sample_system2
             (JStr "constructor") "constructor");
      [exact sample_system2_reachable | reflexivity].
Defined.

Lemma cached_answered (s : Store.t) (name : string) (m t r : value) :
  ToString m = inr name →
  cached (answered s name m t r) m
    = Some {| CachedMessage.message := t; CachedMessage.responses := r |}.
Proof.
  intros Hm. apply cached_found. exists name. split; [exact Hm | apply Cache_get_set].
Qed.

Lemma cached_stays (s : Store.t) (name : string) (m t r other : value) :
  is_Some (cached s other) → is_Some (cached (answered s name m t r) other).
Proof.
  intros [entry Hentry]. apply cached_found in Hentry as (key & Hkey & Hget).
  assert (gives_entry (Store.questionCache (answered s name m t r)) key)
    as [entry' Hentry'].
  { apply gives_entry_set. right. exists entry. exact Hget. }
  exists entry'. apply cached_found. eauto.
Qed.

(** X7. In every execution the history only grows at its end, and an
    identifier under which the cache gives an entry keeps giving one:
    nothing is evicted. *)
Theorem history_and_cache_only_grow (constants : Constants.t) (sys sys' : system) :
  rtc (step constants) sys sys' →
  (∃ more, Store.questionHistory (store sys')
           = Store.questionHistory (store sys) ++ more)
  ∧ ∀ m, is_Some (cached (store sys) m) → is_Some (cached (store sys') m).
Proof.
  induction 1 as [sys | sys1 sys2 sys3 Hstep _ [[more IHh] IHc]].
  - split; [exists []; symmetry; apply app_nil_r | tauto].
  - destruct (step_store_cases _ _ _ Hstep)
      as [[Hc Hh] | [(key & m & t & r & Hm & Hs) | (m & e & Hm & Hs)]].
    + split.
      * exists more. rewrite IHh, Hh. reflexivity.
      * intros m Hsome. apply IHc. unfold cached in *. rewrite Hc. exact Hsome.
    + split.
      * exists (m :: more). rewrite IHh, Hs. simpl. rewrite <- app_assoc. reflexivity.
      * intros other Hsome. apply IHc. rewrite Hs. apply cached_stays. exact Hsome.
    + split.
      * exists (m :: more). rewrite IHh, Hs. simpl. rewrite <- app_assoc. reflexivity.
      * intros other Hsome. apply IHc. rewrite Hs. exact Hsome.
Qed.

(** From the page with the answer "m1" to the page with "m1" and "m2" *)
Lemma history_and_cache_only_grow_witness :
  (∃ more, Store.questionHistory (store sample_system2) = [JStr "m1"] ++ more)
  ∧ is_Some (cached (store sample_system2) (JStr "m1")).
Proof.
  destruct (history_and_cache_only_grow sample_constants sample_system sample_system2)
    as [Hhistory Hcache].
  - unfold sample_system2.
    eapply rtc_r; [| apply step_resolve; eexists; reflexivity].
    apply rtc_once. apply step_dispatch.
  - split; [exact Hhistory |]. apply Hcache. eexists. reflexivity.
Defined.

(** ** Requests *)





(** ** Answers and their replay *)

(** X9. Round trip through the cache.  Once the chain of ASK_QUESTION
    has recorded an answer with a truthy messageId [m] that converts to a
    property name, message [t] and responses [r], ASK_QUESTION with
    messageId [m] is served from the cache: it hands nothing to [fetch],
    and ANSWER_RECEIVED_BROADCAST carries messageId [m], message [t] and
    responses [r].  This holds for every name, the inherited ones and
    "__proto__" included. *)
Theorem answer_then_replay
    (constants : Constants.t) (s : Store.t) (response : Response.t)
    (data m t r : value) (name : string) (question : Question.t) :
  Response.status response = 200%Z →
  Response.json response = inr data →
  get data "messageId" = inr m →
  get data "message" = inr t →
  get data "responses" = inr r →
  ToString m = inr name →
  truthy m = true →
  Question.messageId question = m →
  let s1 := (then_ASK_QUESTION (Fulfilled response) s).1.2 in
  ∃ s2,
    on constants (ASK_QUESTION question) s1
      = (inr tt, s2,
         [Trigger ASKING_QUESTION_BROADCAST s1;
          Trigger (ANSWER_RECEIVED_BROADCAST (Store.conversation s2)) s2;
          Trigger (ALTERNATIVE_QUESTION_BROADCAST (Store.conversation s2)) s2])
    ∧ Conversation.messageId (Store.conversation s2) = m
    ∧ Conversation.message (Store.conversation s2) = t
    ∧ Conversation.responses (Store.conversation s2) = r.
Proof.
  intros Hstatus Hjson Hm Ht Hr Hname Htruthy Hq. subst m.
  rewrite (then_ASK_QUESTION_answer s response data _ t r name
             Hstatus Hjson Hm Ht Hr Hname).
  cbv zeta. unfold fst, snd.
  exists (recalled (answered s name (Question.messageId question) t r)
            (Question.messageId question)
            {| CachedMessage.message := t; CachedMessage.responses := r |}).
  split; [| repeat split].
  apply ASK_QUESTION_hit; [exact Htruthy | apply cached_answered; exact Hname].
Qed.

Lemma answer_then_replay_witness :
  let s1 := (then_ASK_QUESTION
               (Fulfilled (answer (JStr "__proto__") (JStr "hi") (JArr [JStr "r1"])))
               sample_started).1.2 in
  ∃ s2,
    on sample_constants
       (ASK_QUESTION (Question.Build (JStr "__proto__") JUndefined JUndefined)) s1
      = (inr tt, s2,
         [Trigger ASKING_QUESTION_BROADCAST s1;
          Trigger (ANSWER_RECEIVED_BROADCAST (Store.conversation s2)) s2;
          Trigger (ALTERNATIVE_QUESTION_BROADCAST (Store.conversation s2)) s2])
    ∧ Conversation.messageId (Store.conversation s2) = JStr "__proto__"
    ∧ Conversation.message (Store.conversation s2) = JStr "hi"
    ∧ Conversation.responses (Store.conversation s2) = JArr [JStr "r1"].
Proof.
  apply (answer_then_replay sample_constants sample_started
           (answer (JStr "__proto__") (JStr "hi") (JArr [JStr "r1"]))
           (JObj [("messageId", JStr "__proto__"); ("message", JStr "hi");
                  ("responses", JArr [JStr "r1"])])
           (JStr "__proto__") (JStr "hi") (JArr [JStr "r1"]) "__proto__"
           (Question.Build (JStr "__proto__") JUndefined JUndefined));
    reflexivity.
Defined.

(** Why the identifier of X9 has to convert: with the object
    [{"toString": 1}] as messageId nothing is recorded, and the replay
    throws out of the handler. *)
Example replay_of_unconvertible_identifier :
  let s1 := (then_ASK_QUESTION (Fulfilled (answer sample_object (JStr "hi") (JArr [])))
               sample_started).1.2 in
  on sample_constants
     (ASK_QUESTION (Question.Build sample_object JUndefined JUndefined)) s1
    = (inl NotPrimitive, s1, [Trigger ASKING_QUESTION_BROADCAST s1]).
Proof. reflexivity. Qed.

(** X10. An answer whose messageId is falsy (missing from the data, null,
    or the empty string) is put into the cache and the history all the
    same, but it can never be replayed: ASK_QUESTION with that messageId
    goes to the network (the conversationId converting to a string for
    the URL), and SET_CURRENT_QUESTION with it does nothing. *)
Theorem falsy_answer_never_replayed
    (constants : Constants.t) (s : Store.t) (response : Response.t)
    (data m t r : value) (conversationId : string) (question : Question.t) :
  Response.status response = 200%Z →
  Response.json response = inr data →
  get data "messageId" = inr m →
  get data "message" = inr t →
  get data "responses" = inr r →
  truthy m = false →
  Question.messageId question = m →
  ToString (Conversation.conversationId (Store.conversation s)) = inr conversationId →
  let s1 := (then_ASK_QUESTION (Fulfilled response) s).1.2 in
  cached s1 m = Some {| CachedMessage.message := t; CachedMessage.responses := r |}
  ∧ Store.questionHistory s1 = Store.questionHistory s ++ [m]
  ∧ (∃ request,
       on constants (ASK_QUESTION question) s1
         = (inr tt, s1, [Trigger ASKING_QUESTION_BROADCAST s1; Fetch request ask_chain]))
  ∧ on constants (SET_CURRENT_QUESTION question) s1 = (inr tt, s1, []).
Proof.
  intros Hstatus Hjson Hm Ht Hr Hfalsy Hq Hid. subst m.
  destruct (falsy_converts _ Hfalsy) as [name Hname].
  rewrite (then_ASK_QUESTION_answer s response data _ t r name
             Hstatus Hjson Hm Ht Hr Hname).
  cbv zeta. unfold fst, snd.
  split; [apply cached_answered; exact Hname | split; [reflexivity | split]].
  - eexists.
    apply (ASK_QUESTION_posts constants question _ name conversationId Hname);
      [rewrite Hfalsy; reflexivity | exact Hid].
  - apply (SET_CURRENT_QUESTION_skips constants question _ name Hname).
    rewrite Hfalsy. reflexivity.
Qed.

Lemma falsy_answer_never_replayed_witness :
  let s1 := (then_ASK_QUESTION (Fulfilled (ok (JObj [("message", JStr "hi")])))
               sample_started).1.2 in
  cached s1 JUndefined
    = Some {| CachedMessage.message := JStr "hi"; CachedMessage.responses := JUndefined |}
  ∧ Store.questionHistory s1 = Store.questionHistory sample_started ++ [JUndefined]
  ∧ (∃ request,
       on sample_constants (ASK_QUESTION (Question.Build JUndefined JUndefined JUndefined)) s1
         = (inr tt, s1, [Trigger ASKING_QUESTION_BROADCAST s1; Fetch request ask_chain]))
  ∧ on sample_constants
       (SET_CURRENT_QUESTION (Question.Build JUndefined JUndefined JUndefined)) s1
    = (inr tt, s1, []).
Proof.
  apply (falsy_answer_never_replayed sample_constants sample_started
           (ok (JObj [("message", JStr "hi")])) (JObj [("message", JStr "hi")])
           JUndefined (JStr "hi") JUndefined "c1"
           (Question.Build JUndefined JUndefined JUndefined));
    reflexivity.
Defined.

(** Why the conversationId of X10 has to convert: on a store whose
    conversation was started with the object [{"toString": 1}] as
    conversationId, the URL of the request cannot be built and
    ASK_QUESTION throws after its first broadcast. *)
Example question_without_url :
  let s := (then_CONVERSATION_START
              (Fulfilled (ok (JObj [("conversationId", sample_object)])))
              ConversationStore).1.2 in
  on sample_constants
     (ASK_QUESTION (Question.Build JUndefined (JStr "why") JUndefined)) s
    = (inl NotPrimitive, s, [Trigger ASKING_QUESTION_BROADCAST s])
  ∧ on sample_constants GET_TOP_QUESTIONS s = (inl NotPrimitive, s, []).
Proof. split; reflexivity. Qed.

(** X11. Two answers recorded one after the other, in the order their
    requests settle, with identifiers that convert to the property names
    [name1] and [name2]: the history gets both identifiers in that order,
    the conversation shows the second answer, and the cache gives the
    second answer under its identifier.  The first answer stays in the
    cache when the two names differ; when they are the same name (as for
    the number 7 and the string "7"), the second answer has replaced the
    first in the cache while the history holds both identifiers. *)
Theorem two_answers_in_sequence
    (s : Store.t) (m1 t1 r1 m2 t2 r2 : value) (name1 name2 : string) :
  ToString m1 = inr name1 →
  ToString m2 = inr name2 →
  let s1 := (then_ASK_QUESTION (Fulfilled (answer m1 t1 r1)) s).1.2 in
  let s2 := (then_ASK_QUESTION (Fulfilled (answer m2 t2 r2)) s1).1.2 in
  Store.questionHistory s2 = Store.questionHistory s ++ [m1; m2]
  ∧ Conversation.messageId (Store.conversation s2) = m2
  ∧ Conversation.message (Store.conversation s2) = t2
  ∧ Conversation.responses (Store.conversation s2) = r2
  ∧ cached s2 m2 = Some {| CachedMessage.message := t2; CachedMessage.responses := r2 |}
  ∧ (name1 ≠ name2 →
       cached s2 m1 = Some {| CachedMessage.message := t1; CachedMessage.responses := r1 |})
  ∧ (name1 = name2 →
       cached s2 m1 = Some {| CachedMessage.message := t2; CachedMessage.responses := r2 |}).
Proof.
  intros H1 H2.
  rewrite (then_ASK_QUESTION_answer s (answer m1 t1 r1) _ m1 t1 r1 name1
             eq_refl eq_refl eq_refl eq_refl eq_refl H1).
  cbv zeta. unfold fst, snd.
  rewrite (then_ASK_QUESTION_answer (answered s name1 m1 t1 r1) (answer m2 t2 r2) _
             m2 t2 r2 name2 eq_refl eq_refl eq_refl eq_refl eq_refl H2).
  cbv zeta. unfold fst, snd.
  split; [| repeat split].
  - simpl. rewrite <- app_assoc. reflexivity.
  - apply cached_answered. exact H2.
  - intros Hne. apply cached_found. exists name1. split; [exact H1 |].
    apply Cache_get_set_other; [exact Hne | apply Cache_get_set].
  - intros Heq. apply cached_found. exists name1. split; [exact H1 |].
    subst name2. apply Cache_get_set.
Qed.

Lemma two_answers_in_sequence_witness :
  cached (then_ASK_QUESTION (Fulfilled (answer (JStr "__proto__") (JStr "bye") (JArr [])))
            (then_ASK_QUESTION
               (Fulfilled (answer (JStr "message") (JStr "hi") (JArr [JStr "r1"])))
               sample_started).1.2).1.2
         (JStr "message")
    = Some {| CachedMessage.message := JStr "hi";
              CachedMessage.responses := JArr [JStr "r1"] |}
  ∧ cached (then_ASK_QUESTION (Fulfilled (answer (JStr "1e+21") (JStr "b") JNull))
              (then_ASK_QUESTION (Fulfilled (answer (JNum "1e+21") (JStr "a") JNull))
                 ConversationStore).1.2).1.2
           (JNum "1e+21")
    = Some {| CachedMessage.message := JStr "b"; CachedMessage.responses := JNull |}.
Proof.
  split.
  - apply (proj1 (proj2 (proj2 (proj2 (proj2 (proj2
             (two_answers_in_sequence sample_started
                (JStr "message") (JStr "hi") (JArr [JStr "r1"])
                (JStr "__proto__") (JStr "bye") (JArr [])
                "message" "__proto__" eq_refl eq_refl))))))).
    discriminate.
  - apply (proj2 (proj2 (proj2 (proj2 (proj2 (proj2
             (two_answers_in_sequence ConversationStore
                (JNum "1e+21") (JStr "a") JNull (JStr "1e+21") (JStr "b") JNull
                "1e+21" "1e+21" eq_refl eq_refl))))))).
    reflexivity.
Defined.

(** ** The handlers that recall from the cache *)

(** X12. ASK_QUESTION and SET_CURRENT_QUESTION with the same question
    leave the same store: replaying an answer changes the store no more
    than selecting it.  Selecting it a second time changes nothing
    further. *)
Theorem ASK_QUESTION_store_as_SET_CURRENT_QUESTION
    (constants : Constants.t) (question : Question.t) (s : Store.t) :
  let selected := (on constants (SET_CURRENT_QUESTION question) s).1.2 in
  (on constants (ASK_QUESTION question) s).1.2 = selected
  ∧ (on constants (SET_CURRENT_QUESTION question) selected).1.2 = selected.
Proof.
  destruct (ToString (Question.messageId question)) as [e | name] eqn:Hname.
  { rewrite (SET_CURRENT_QUESTION_throws constants question s e Hname),
            (ASK_QUESTION_throws constants question s e Hname).
    cbv zeta. cbn [fst snd]. split; [reflexivity |].
    rewrite (SET_CURRENT_QUESTION_throws constants question s e Hname). reflexivity. }
  destruct (truthy (Question.messageId question)
            && truthy_found (Cache_get (Store.questionCache s) name)) eqn:Htest.
  - rewrite (SET_CURRENT_QUESTION_recalls constants question s name Hname Htest),
            (ASK_QUESTION_recalls constants question s name Hname Htest).
    cbv zeta. unfold fst, snd. split; [reflexivity |].
    rewrite (SET_CURRENT_QUESTION_recalls constants question
               (recalled s (Question.messageId question)
                  (read_off (Cache_get (Store.questionCache s) name)))
               name Hname Htest).
    reflexivity.
  - rewrite (SET_CURRENT_QUESTION_skips constants question s name Hname Htest).
    cbv zeta. cbn [fst snd].
    rewrite (SET_CURRENT_QUESTION_skips constants question s name Hname Htest).
    split; [| reflexivity].
    destruct (ToString (Conversation.conversationId (Store.conversation s)))
      as [e | id] eqn:Hid.
    + rewrite (ASK_QUESTION_url_throws constants question s name e Hname Htest Hid).
      reflexivity.
    + rewrite (ASK_QUESTION_posts constants question s name id Hname Htest Hid).
      reflexivity.
Qed.

(** X13. UPDATE_REFINEMENT_QUESTIONS never changes the store and never
    goes to the network.  When its test on the cache fails (a falsy
    messageId, or nothing truthy in the cache object under its name) it
    triggers nothing.  With a truthy messageId under which the cache gives
    an entry, it triggers one UPDATE_REFINEMENT_QUESTIONS_BROADCAST whose
    object has the responses and the message of the entry and the
    messageId given.  With a truthy messageId that names a method the
    cache object inherits, such as "valueOf", and no entry, it triggers
    that broadcast too, with undefined responses and message. *)
Theorem UPDATE_REFINEMENT_QUESTIONS_cases
    (constants : Constants.t) (question : Question.t) (s : Store.t) :
  let messageId := Question.messageId question in
  ((on constants (UPDATE_REFINEMENT_QUESTIONS question) s).1.2 = s
   ∧ fetches (on constants (UPDATE_REFINEMENT_QUESTIONS question) s).2 = [])
  ∧ (not_recalled s messageId →
     on constants (UPDATE_REFINEMENT_QUESTIONS question) s = (inr tt, s, []))
  ∧ (∀ cachedMessage,
       truthy messageId = true →
       cached s messageId = Some cachedMessage →
       on constants (UPDATE_REFINEMENT_QUESTIONS question) s
         = (inr tt, s,
            [Trigger (UPDATE_REFINEMENT_QUESTIONS_BROADCAST
                        {| Refinement.responses := CachedMessage.responses cachedMessage;
                           Refinement.messageId := messageId;
                           Refinement.message := CachedMessage.message cachedMessage |})
                     s]))
  ∧ (∀ name,
       truthy messageId = true →
       ToString messageId = inr name →
       Cache_get (Store.questionCache s) name = found_function →
       on constants (UPDATE_REFINEMENT_QUESTIONS question) s
         = (inr tt, s,
            [Trigger (UPDATE_REFINEMENT_QUESTIONS_BROADCAST
                        {| Refinement.responses := JUndefined;
                           Refinement.messageId := messageId;
                           Refinement.message := JUndefined |})
                     s])).
Proof.
  intros messageId. split; [| split; [| split]].
  - destruct (ToString messageId) as [e | name] eqn:Hname.
    { rewrite (UPDATE_REFINEMENT_QUESTIONS_throws constants question s e Hname).
      split; reflexivity. }
    destruct (truthy messageId
              && truthy_found (Cache_get (Store.questionCache s) name)) eqn:Htest.
    + rewrite (UPDATE_REFINEMENT_QUESTIONS_recalls constants question s name Hname Htest).
      split; reflexivity.
    + rewrite (UPDATE_REFINEMENT_QUESTIONS_skips constants question s name Hname Htest).
      split; reflexivity.
  - intros (name & Hname & Htest).
    exact (UPDATE_REFINEMENT_QUESTIONS_skips constants question s name Hname Htest).
  - intros cachedMessage Htruthy Hcached.
    destruct (truthy_cached_test question s _ Htruthy Hcached)
      as (name & Hname & Hget & Htest).
    rewrite (UPDATE_REFINEMENT_QUESTIONS_recalls constants question s name Hname Htest),
            Hget.
    destruct cachedMessage. reflexivity.
  - intros name Htruthy Hname Hget.
    rewrite (UPDATE_REFINEMENT_QUESTIONS_recalls constants question s name Hname);
      [rewrite Hget; reflexivity |].
    fold messageId. rewrite Htruthy, Hget. reflexivity.
Qed.

Lemma UPDATE_REFINEMENT_QUESTIONS_cases_witness :
  on sample_constants
     (UPDATE_REFINEMENT_QUESTIONS (Question.Build (JStr "m3") JUndefined JUndefined))
     sample_answered2
    = (inr tt, sample_answered2, [])
  ∧ on sample_constants
       (UPDATE_REFINEMENT_QUESTIONS (Question.Build (JStr "m1") JUndefined JUndefined))
       sample_answered2
    = (inr tt, sample_answered2,
       [Trigger (UPDATE_REFINEMENT_QUESTIONS_BROADCAST
                   {| Refinement.responses := JArr [JStr "r1"; JStr "r2"];
                      Refinement.messageId := JStr "m1";
                      Refinement.message := JStr "hi" |})
                sample_answered2])
  ∧ on sample_constants
       (UPDATE_REFINEMENT_QUESTIONS (Question.Build (JStr "valueOf") JUndefined JUndefined))
       sample_answered2
    = (inr tt, sample_answered2,
       [Trigger (UPDATE_REFINEMENT_QUESTIONS_BROADCAST
                   {| Refinement.responses := JUndefined;
                      Refinement.messageId := JStr "valueOf";
                      Refinement.message := JUndefined |})
                sample_answered2]).
Proof.
  split; [| split].
  - apply (proj1 (proj2 (UPDATE_REFINEMENT_QUESTIONS_cases sample_constants
                    (Question.Build (JStr "m3") JUndefined JUndefined) sample_answered2))).
    eexists. split; reflexivity.
  - apply (proj1 (proj2 (proj2 (UPDATE_REFINEMENT_QUESTIONS_cases sample_constants
                    (Question.Build (JStr "m1") JUndefined JUndefined) sample_answered2)))
                 (CachedMessage.Build (JStr "hi") (JArr [JStr "r1"; JStr "r2"])));
      reflexivity.
  - apply (proj2 (proj2 (proj2 (UPDATE_REFINEMENT_QUESTIONS_cases sample_constants
                    (Question.Build (JStr "valueOf") JUndefined JUndefined)
                    sample_answered2)))
                 "valueOf");
      reflexivity.
Defined.

(** X14. SET_CURRENT_QUESTION triggers nothing, but what it selected is
    what GET_ALTERNATIVE_QUESTIONS broadcasts next: after a selection that
    found an entry, ALTERNATIVE_QUESTION_BROADCAST carries the messageId
    given and the message and the responses of the entry, and
    GET_ALTERNATIVE_QUESTIONS itself changes nothing. *)
Theorem selection_then_GET_ALTERNATIVE_QUESTIONS
    (constants : Constants.t) (question : Question.t) (s : Store.t)
    (cachedMessage : CachedMessage.t) :
  truthy (Question.messageId question) = true →
  cached s (Question.messageId question) = Some cachedMessage →
  let s1 := (on constants (SET_CURRENT_QUESTION question) s).1.2 in
  ∃ conversation,
    on constants GET_ALTERNATIVE_QUESTIONS s1
      = (inr tt, s1, [Trigger (ALTERNATIVE_QUESTION_BROADCAST conversation) s1])
    ∧ Conversation.messageId conversation = Question.messageId question
    ∧ Conversation.message conversation = CachedMessage.message cachedMessage
    ∧ Conversation.responses conversation = CachedMessage.responses cachedMessage.
Proof.
  intros Htruthy Hcached.
  rewrite (SET_CURRENT_QUESTION_hit constants question s cachedMessage Htruthy Hcached).
  cbv zeta. unfold fst, snd.
  eexists. split; [reflexivity | repeat split].
Qed.

Lemma selection_then_GET_ALTERNATIVE_QUESTIONS_witness :
  let s1 := (on sample_constants
               (SET_CURRENT_QUESTION (Question.Build (JStr "m1") JUndefined JUndefined))
               sample_answered2).1.2 in
  ∃ conversation,
    on sample_constants GET_ALTERNATIVE_QUESTIONS s1
      = (inr tt, s1, [Trigger (ALTERNATIVE_QUESTION_BROADCAST conversation) s1])
    ∧ Conversation.messageId conversation = JStr "m1"
    ∧ Conversation.message conversation = JStr "hi"
    ∧ Conversation.responses conversation = JArr [JStr "r1"; JStr "r2"].
Proof.
  apply (selection_then_GET_ALTERNATIVE_QUESTIONS sample_constants
           (Question.Build (JStr "m1") JUndefined JUndefined) sample_answered2
           (CachedMessage.Build (JStr "hi") (JArr [JStr "r1"; JStr "r2"])));
    reflexivity.
Defined.

(** ** Feedback *)

(** X15. FORUM_BUTTON_PRESSED posts one feedback request with the action
    FORUM_REDIRECT and the conversationId of the conversation, triggers no
    broadcast and leaves the store as it was.  The messageId posted is the
    one given when that is truthy, and the current messageId of the
    conversation when it is falsy (left out, or the empty string). *)
Theorem FORUM_BUTTON_PRESSED_messageId
    (constants : Constants.t) (messageId : value) (s : Store.t) :
  ∃ postData,
    on constants (FORUM_BUTTON_PRESSED messageId) s
      = (inr tt, s,
         [Fetch {| Request.url := Constants.feedbackUrl constants;
                   Request.method := "post";
                   Request.headers := [("Content-Type", "application/json")];
                   Request.body := stringify_postData postData |}
                feedback_chain])
    ∧ PostData.action postData = "FORUM_REDIRECT"
    ∧ PostData.conversationId postData
        = Conversation.conversationId (Store.conversation s)
    ∧ (truthy messageId = true → PostData.messageId postData = messageId)
    ∧ (truthy messageId = false →
         PostData.messageId postData = Conversation.messageId (Store.conversation s)).
Proof.
  eexists. split; [reflexivity |]. simpl.
  repeat split; intros H; rewrite H; reflexivity.
Qed.

Lemma FORUM_BUTTON_PRESSED_messageId_witness :
  ∃ postData,
    on sample_constants (FORUM_BUTTON_PRESSED (JStr "")) sample_answered2
      = (inr tt, sample_answered2,
         [Fetch {| Request.url := "/feedback";
                   Request.method := "post";
                   Request.headers := [("Content-Type", "application/json")];
                   Request.body := stringify_postData postData |}
                feedback_chain])
    ∧ PostData.messageId postData = JStr "m2".
Proof.
  destruct (FORUM_BUTTON_PRESSED_messageId sample_constants (JStr "") sample_answered2)
    as (postData & Hrun & _ & _ & _ & Hfalsy).
  exists postData. split; [exact Hrun |]. apply Hfalsy. reflexivity.
Defined.

(** X16. Each of NONE_OF_THE_ABOVE_CLICKED, NEGATIVE_FEEDBACK_GIVEN and
    POSITIVE_FEEDBACK_GIVEN posts, to the feedback URL, the conversationId
    and the messageId the conversation has at that moment, with its own
    action (NO_HELPFUL_REFINEMENTS, UNHELPFUL, HELPFUL); the store stays
    as it was. *)
Theorem feedback_posts_current_message
    (constants : Constants.t) (a : action) (name : string) (s : Store.t) :
  feedback_action a = Some name →
  ∃ b,
    on constants a s
      = (inr tt, s,
         [Trigger b s;
          Fetch {| Request.url := Constants.feedbackUrl constants;
                   Request.method := "post";
                   Request.headers := [("Content-Type", "application/json")];
                   Request.body :=
                     stringify_postData
                       {| PostData.conversationId :=
                            Conversation.conversationId (Store.conversation s);
                          PostData.messageId :=
                            Conversation.messageId (Store.conversation s);
                          PostData.action := name |} |}
                feedback_chain]).
Proof.
  intros Hname.
  destruct a; simpl in Hname; try discriminate;
    injection Hname as <-; eexists; reflexivity.
Qed.

Lemma feedback_posts_current_message_witness :
  ∃ b,
    on sample_constants POSITIVE_FEEDBACK_GIVEN sample_answered2
      = (inr tt, sample_answered2,
         [Trigger b sample_answered2;
          Fetch {| Request.url := "/feedback";
                   Request.method := "post";
                   Request.headers := [("Content-Type", "application/json")];
                   Request.body :=
                     stringify_postData
                       {| PostData.conversationId := JStr "c1";
                          PostData.messageId := JStr "m2";
                          PostData.action := "HELPFUL" |} |}
                feedback_chain]).
Proof.
  apply (feedback_posts_current_message sample_constants POSITIVE_FEEDBACK_GIVEN
           "HELPFUL" sample_answered2).
  reflexivity.
Defined.

(** ** GET_TOP_QUESTIONS on the page *)

(** X17. On every store the page can reach, the handler of
    GET_TOP_QUESTIONS triggers no broadcast before it returns and leaves
    the store as it was.  It hands a request to [fetch] exactly when
    [conversationId] is truthy, the top questions of the conversation are
    falsy, and [conversationId] converts to a string for the URL; when the
    conversion throws, nothing has been done.  Before a conversation has
    started the handler does nothing at all. *)
Theorem GET_TOP_QUESTIONS_on_the_page (constants : Constants.t) (sys : system) :
  reachable constants sys →
  let s := store sys in
  let wanted := truthy (Conversation.conversationId (Store.conversation s))
                && negb (truthy (Conversation.topQuestions (Store.conversation s))) in
  let possible := converts (Conversation.conversationId (Store.conversation s)) in
  (on constants GET_TOP_QUESTIONS s).1.2 = s
  ∧ broadcasts (on constants GET_TOP_QUESTIONS s).2 = []
  ∧ (wanted = true → possible = true → ∃ request,
       (on constants GET_TOP_QUESTIONS s).2 = [Fetch request top_questions_chain])
  ∧ (wanted = true → possible = false → (on constants GET_TOP_QUESTIONS s).2 = [])
  ∧ (wanted = false → (on constants GET_TOP_QUESTIONS s).2 = []).
Proof.
  intros Hreach s wanted possible.
  pose proof (reachable_topQuestions _ _ Hreach) as Hself. fold s in Hself.
  unfold possible, converts.
  run. fold wanted. rewrite Hself.
  destruct wanted; simpl;
    [destruct (ToString (Conversation.conversationId (Store.conversation s))); simpl |];
    repeat split; try discriminate; eauto.
Qed.

Lemma GET_TOP_QUESTIONS_on_the_page_witness :
  (on sample_constants GET_TOP_QUESTIONS (store sample_system)).1.2 = store sample_system
  ∧ broadcasts (on sample_constants GET_TOP_QUESTIONS (store sample_system)).2 = []
  ∧ (on sample_constants GET_TOP_QUESTIONS (store sample_system)).2 = [].
Proof.
  destruct (GET_TOP_QUESTIONS_on_the_page sample_constants sample_system
              sample_system_reachable)
    as (Hstore & Hbroadcasts & _ & _ & Hnothing).
  split; [exact Hstore | split; [exact Hbroadcasts |]].
  apply Hnothing. reflexivity.
Defined.

(** X18. The round trip of GET_TOP_QUESTIONS.  With a truthy
    [conversationId] that converts to the string [id] and falsy top
    questions the handler sends a GET to the conversation URL followed by
    [id] and "/topQuestions"; when that request is answered with status
    200 and data whose topQuestions is [top], the chain stores [top] as
    the top questions of the conversation, changes nothing else and
    triggers TOP_QUESTIONS_BROADCAST with [top]. *)
Theorem GET_TOP_QUESTIONS_round_trip
    (constants : Constants.t) (s : Store.t) (response : Response.t) (data top : value)
    (id : string) :
  truthy (Conversation.conversationId (Store.conversation s)) = true →
  truthy (Conversation.topQuestions (Store.conversation s)) = false →
  ToString (Conversation.conversationId (Store.conversation s)) = inr id →
  Response.status response = 200%Z →
  Response.json response = inr data →
  get data "topQuestions" = inr top →
  ∃ request,
    on constants GET_TOP_QUESTIONS s = (inr tt, s, [Fetch request top_questions_chain])
    ∧ Request.method request = "get"
    ∧ Request.url request
        = Constants.conversationUrl constants +:+ id +:+ "/topQuestions"
    ∧ ∃ s',
        settle top_questions_chain (Fulfilled response) s
          = (inr tt, s', [Trigger (TOP_QUESTIONS_BROADCAST top) s'])
        ∧ Store.conversation s' = set_topQuestions top (Store.conversation s)
        ∧ Store.questionCache s' = Store.questionCache s
        ∧ Store.questionHistory s' = Store.questionHistory s.
Proof.
  intros Hid Htop Hname Hstatus Hjson Hget.
  eexists. split; [apply (GET_TOP_QUESTIONS_fetches constants s id); assumption |].
  split; [reflexivity | split; [reflexivity |]].
  exists (started s (Conversation.conversationId (Store.conversation s)) top).
  split; [| repeat split].
  run. rewrite Hstatus. simpl. rewrite Hjson. simpl. rewrite Hget. reflexivity.
Qed.

Lemma GET_TOP_QUESTIONS_round_trip_witness :
  let s := (then_CONVERSATION_START
              (Fulfilled (ok (JObj [("conversationId", JNum "1e+21")])))
              ConversationStore).1.2 in
  ∃ request,
    on sample_constants GET_TOP_QUESTIONS s = (inr tt, s, [Fetch request top_questions_chain])
    ∧ Request.method request = "get"
    ∧ Request.url request = "/1e+21/topQuestions"
    ∧ ∃ s',
        settle top_questions_chain
          (Fulfilled (ok (JObj [("topQuestions", JArr [JStr "q9"])]))) s
          = (inr tt, s', [Trigger (TOP_QUESTIONS_BROADCAST (JArr [JStr "q9"])) s'])
        ∧ Store.conversation s' = set_topQuestions (JArr [JStr "q9"]) (Store.conversation s)
        ∧ Store.questionCache s' = Store.questionCache s
        ∧ Store.questionHistory s' = Store.questionHistory s.
Proof.
  apply (GET_TOP_QUESTIONS_round_trip sample_constants
           (then_CONVERSATION_START
              (Fulfilled (ok (JObj [("conversationId", JNum "1e+21")])))
              ConversationStore).1.2
           (ok (JObj [("topQuestions", JArr [JStr "q9"])]))
           (JObj [("topQuestions", JArr [JStr "q9"])]) (JArr [JStr "q9"]) "1e+21");
    reflexivity.
Defined.

